(** * Write-Tools: a model of [main.py] and its specification

    The program is a tray utility: it reads the clipboard, builds a prompt,
    sends one chat-completion request, checks the language of the answer and
    puts the answer on the clipboard; a second dialog generates images.

    Python values are embedded directly: a [str] is the list of its Unicode
    code points, a [dict] is a finite map, an exception is a value that a
    computation may produce instead of a result.  Third-party calls
    ([langdetect.detect], the chat endpoint, [replicate.run],
    [markdown.markdown], the builtins [str] and [repr]) are parameters of the
    sections that use them. *)

From Stdlib Require Import NArith ZArith String Ascii DecimalString Lia.
From Stdlib Require Import Floats.SpecFloat.
From stdpp Require Import base option list gmap.

Set Warnings "-register-all".
Set Default Proof Using "Type".

(** ** Python strings *)

(** A Python [str]: the sequence of its code points. *)
Abbreviation pystr := (list N).

(** A string literal of the source (all of them are ASCII). *)
Definition lit (s : string) : pystr := N_of_ascii <$> list_ascii_of_string s.

(** The line feed of a triple-quoted literal and of the escape [\n]. *)
Definition nl : pystr := [10%N].

(** [str(n)] for a non-negative [int], as an f-string prints [len(...)]. *)
Definition str_of_nat (n : nat) : pystr :=
  lit (NilEmpty.string_of_uint (Nat.to_uint n)).

(** [c.isspace()] for a single code point, as CPython decides it
    ([_Py_ascii_whitespace] below 128, [_PyUnicode_IsWhitespace] above). *)
Definition isspace (c : N) : bool :=
  ((0x09 <=? c) && (c <=? 0x0D))%N
  || ((0x1C <=? c) && (c <=? 0x1F))%N
  || (c =? 0x20)%N
  || (c =? 0x85)%N
  || (c =? 0xA0)%N
  || (c =? 0x1680)%N
  || ((0x2000 <=? c) && (c <=? 0x200A))%N
  || (c =? 0x2028)%N
  || (c =? 0x2029)%N
  || (c =? 0x202F)%N
  || (c =? 0x205F)%N
  || (c =? 0x3000)%N.

(** [s.lstrip()], [s.rstrip()] and [s.strip()] without argument. *)
Fixpoint lstrip (s : pystr) : pystr :=
  match s with
  | [] => []
  | c :: s' => if isspace c then lstrip s' else s
  end.

Definition rstrip (s : pystr) : pystr := reverse (lstrip (reverse s)).

Definition strip (s : pystr) : pystr := rstrip (lstrip s).

(** [t in s] for strings: [t] occurs in [s] as a contiguous run. *)
Definition occurs_in (t s : pystr) : Prop := ∃ l r, s = l ++ t ++ r.

(** ** Python objects *)

(** The objects the program handles without knowing their class: what
    [json.load] returns, what [replicate.run] returns.  [PyOpaque] stands for
    an instance of any other class (a file handle of the image service, say). *)
Inductive PyObj :=
| PyNone
| PyBool (b : bool)
| PyInt (n : Z)
| PyFloat (x : spec_float)
| PyStr (s : pystr)
| PyList (items : list PyObj)
| PyDict (d : gmap pystr PyObj)
| PyOpaque (id : N).

(** Truth value of an object, as [if x:] and [not x] compute it. *)
Definition truthy (x : PyObj) : bool :=
  match x with
  | PyNone => false
  | PyBool b => b
  | PyInt n => negb (n =? 0)%Z
  | PyFloat (S754_zero _) => false
  | PyFloat _ => true
  | PyStr s => negb (bool_decide (s = []))
  | PyList items => negb (bool_decide (length items = 0))
  | PyDict d => negb (bool_decide (size d = 0))
  | PyOpaque _ => true
  end.

(** [isinstance(x, list)]. *)
Definition is_list (x : PyObj) : bool :=
  match x with PyList _ => true | _ => false end.

(** ** Exceptions *)

(** The exception classes that occur; all derive from [Exception]. *)
Inductive ExnClass :=
| KeyError
| IndexError
| AttributeError
| FileNotFoundError
| JSONDecodeError
| RequestException
| OtherException.

(** A raised exception: its class and [str(e)]. *)
Record Exn := mkExn { exn_class : ExnClass; exn_str : pystr }.

(** How a call ends: it returns a value or raises. *)
Inductive Outcome (A : Type) :=
| Return (a : A)
| Raise (e : Exn).
Arguments Return {A} a.
Arguments Raise {A} e.

(** [type(x).__name__], as it appears in the text of an [AttributeError].
    An opaque object does not occur where the program needs the name (a
    decoded JSON document has none). *)
Definition type_name (x : PyObj) : pystr :=
  match x with
  | PyNone => lit "NoneType"
  | PyBool _ => lit "bool"
  | PyInt _ => lit "int"
  | PyFloat _ => lit "float"
  | PyStr _ => lit "str"
  | PyList _ => lit "list"
  | PyDict _ => lit "dict"
  | PyOpaque _ => lit "object"
  end.

(** [x.attr] on an object whose class has no such attribute. *)
Definition no_attribute (x : PyObj) (attr : pystr) : Exn :=
  mkExn AttributeError
    (lit "'" ++ type_name x ++ lit "' object has no attribute '" ++ attr ++ lit "'").

(** ** The world of [MenuBarApp] *)

(** The dialogs [self.current_dialog] may refer to. *)
Inductive DialogRef :=
| ImageGeneratorWindow
| ProcessedTextWindow
| AskQuestionsWindow.

(** What a [QTextEdit] shows: [setPlainText] or [setHtml]. *)
Inductive Body :=
| PlainText (t : pystr)
| Html (t : pystr).

(** What the user sees, in order. *)
Inductive UIEvent :=
| CriticalBox (title message : pystr)   (* QMessageBox.critical *)
| InputBox (title label : pystr)        (* QInputDialog.getText *)
| DialogClosed (d : DialogRef)          (* current_dialog.close() *)
| DialogExec (d : DialogRef) (title : pystr) (body : Body).

Inductive LogLevel := DEBUG | WARNING | ERROR.

(** A chat-completion request and its response. *)
Record Message := mkMessage { role : pystr; content : pystr }.

Record ChatRequest := mkChatRequest {
  req_api_key : PyObj;
  req_model : pystr;
  req_messages : list Message
}.

(** [choice.message.content] is [None] or a [str]. *)
Record Choice := mkChoice { message_content : option pystr }.

Record ChatResponse := mkChatResponse { choices : list Choice }.

(** [config.json].  Its content is kept as the document [json.load] returns
    for it: [json.dump] writes the text of its argument and [json.load] reads
    that text back as the same document.  [NotJson] is a file the decoder
    rejects, with the decoder's message. *)
Inductive File :=
| Absent
| NotJson (err : pystr)
| Document (j : PyObj).

Record World := mkWorld {
  api_key : PyObj;                     (* self.api_key *)
  current_dialog : option DialogRef;   (* self.current_dialog *)
  clipboard : pystr;                   (* the system clipboard *)
  paste_error : option Exn;            (* set when the clipboard cannot be read *)
  copy_error : option Exn;             (* set when the clipboard cannot be written *)
  config_json : File;                  (* the file 'config.json' *)
  ui : list UIEvent;                   (* boxes and dialogs shown so far *)
  stdout : list pystr;                 (* lines printed *)
  log : list (LogLevel * pystr);       (* records passed to logging *)
  net : list ChatRequest;              (* requests sent to the chat endpoint *)
  detect_calls : nat                   (* calls made to the language classifier *)
}.

Definition set_api_key (k : PyObj) (w : World) : World :=
  mkWorld k (current_dialog w) (clipboard w) (paste_error w) (copy_error w) (config_json w)
          (ui w) (stdout w) (log w) (net w) (detect_calls w).

Definition set_current_dialog (d : option DialogRef) (w : World) : World :=
  mkWorld (api_key w) d (clipboard w) (paste_error w) (copy_error w) (config_json w)
          (ui w) (stdout w) (log w) (net w) (detect_calls w).

Definition set_clipboard (t : pystr) (w : World) : World :=
  mkWorld (api_key w) (current_dialog w) t (paste_error w) (copy_error w) (config_json w)
          (ui w) (stdout w) (log w) (net w) (detect_calls w).

Definition set_config_json (f : File) (w : World) : World :=
  mkWorld (api_key w) (current_dialog w) (clipboard w) (paste_error w) (copy_error w) f
          (ui w) (stdout w) (log w) (net w) (detect_calls w).

Definition add_ui (e : UIEvent) (w : World) : World :=
  mkWorld (api_key w) (current_dialog w) (clipboard w) (paste_error w) (copy_error w) (config_json w)
          (ui w ++ [e]) (stdout w) (log w) (net w) (detect_calls w).

Definition add_stdout (line : pystr) (w : World) : World :=
  mkWorld (api_key w) (current_dialog w) (clipboard w) (paste_error w) (copy_error w) (config_json w)
          (ui w) (stdout w ++ [line]) (log w) (net w) (detect_calls w).

Definition add_log (lvl : LogLevel) (msg : pystr) (w : World) : World :=
  mkWorld (api_key w) (current_dialog w) (clipboard w) (paste_error w) (copy_error w) (config_json w)
          (ui w) (stdout w) (log w ++ [(lvl, msg)]) (net w) (detect_calls w).

Definition add_net (r : ChatRequest) (w : World) : World :=
  mkWorld (api_key w) (current_dialog w) (clipboard w) (paste_error w) (copy_error w) (config_json w)
          (ui w) (stdout w) (log w) (net w ++ [r]) (detect_calls w).

Definition bump_detect_calls (w : World) : World :=
  mkWorld (api_key w) (current_dialog w) (clipboard w) (paste_error w) (copy_error w) (config_json w)
          (ui w) (stdout w) (log w) (net w) (S (detect_calls w)).

(** ** Computations: state and exceptions *)

(** A method body: from a world to its outcome and the world it leaves. *)
Definition M (A : Type) : Type := World → Outcome A * World.

#[export] Instance M_ret : MRet M := λ A a w, (Return a, w).

#[export] Instance M_bind : MBind M := λ A B k m w,
  match m w with
  | (Return a, w') => k a w'
  | (Raise e, w') => (Raise e, w')
  end.

Definition raise {A} (e : Exn) : M A := λ w, (Raise e, w).

(** [try: body / except C as e: handler e], where [catches] tells which
    classes [C] covers. *)
Definition try_except {A} (body : M A) (catches : ExnClass → bool)
    (handler : Exn → M A) : M A := λ w,
  match body w with
  | (Return a, w') => (Return a, w')
  | (Raise e, w') =>
      if catches (exn_class e) then handler e w' else (Raise e, w')
  end.

(** [except Exception] and the bare [except] cover every class here. *)
Definition Exception : ExnClass → bool := λ _, true.

Definition only (c : ExnClass) : ExnClass → bool := λ c',
  match c, c' with
  | KeyError, KeyError | IndexError, IndexError
  | AttributeError, AttributeError | FileNotFoundError, FileNotFoundError
  | JSONDecodeError, JSONDecodeError | RequestException, RequestException
  | OtherException, OtherException => true
  | _, _ => false
  end.

Definition gets {A} (f : World → A) : M A := λ w, (Return (f w), w).

Definition modify (f : World → World) : M unit := λ w, (Return tt, f w).

(** [if c: body] without [else]. *)
Definition when (c : bool) (body : M unit) : M unit :=
  if c then body else mret tt.

(** ** Primitive effects *)

(** [print(line)]. *)
Definition print (line : pystr) : M unit := modify (add_stdout line).

(** [logging.debug], [logging.warning], [logging.error]. *)
Definition logging (lvl : LogLevel) (msg : pystr) : M unit := modify (add_log lvl msg).

(** [pyperclip.paste()]: the clipboard text, or the error of the platform. *)
Definition pyperclip_paste : M pystr := λ w,
  match paste_error w with
  | Some e => (Raise e, w)
  | None => (Return (clipboard w), w)
  end.

(** [pyperclip.copy(text)]: the text is on the clipboard, or the call raises
    the error of the platform and the clipboard is as it was. *)
Definition pyperclip_copy (text : pystr) : M unit := λ w,
  match copy_error w with
  | Some e => (Raise e, w)
  | None => (Return tt, set_clipboard text w)
  end.

(** ** The prompt table of [call_openai_api] *)

Definition base_instruction : pystr :=
  nl ++
  lit "        Process the following text according to the given instructions. " ++ nl ++
  lit "        IMPORTANT: " ++ nl ++
  lit "        1. Always respond in the EXACT SAME LANGUAGE as the input text." ++ nl ++
  lit "        2. If the input is in Portuguese, use European Portuguese (from Portugal), not Brazilian Portuguese." ++ nl ++
  lit "        3. DO NOT translate the text to any other language." ++ nl ++
  lit "        4. Maintain the original language, dialect, and style of the input text in your response." ++ nl ++
  lit "        ".

(** The literal part of each f-string of [prompts], after [{base_instruction}]. *)
Definition Proofread_text : pystr :=
  lit " Proofread the text, focusing on grammar, spelling, punctuation, style, and clarity. Return a corrected version.".

Definition Rewrite_text : pystr :=
  lit " Rewrite the text, focusing on clarity, style, and coherence. Maintain the original meaning and tone.".

Definition Friendly_text : pystr :=
  lit " Rewrite the text to make it friendlier. Focus on a warm, approachable, and conversational tone.".

Definition Professional_text : pystr :=
  lit " Rewrite the text to make it more professional. Use formal, respectful language and improve clarity and structure.".

Definition Concise_text : pystr :=
  lit " Rewrite the text to make it more concise. Focus on clarity and brevity while maintaining the original meaning.".

Definition Summary_text : pystr :=
  lit " Summarize the text, focusing on key points and main ideas. Ensure the summary is clear and concise.".

Definition KeyPoints_text : pystr :=
  lit " Extract the key points from the text. Present them in a bulleted or numbered list.".

Definition Table_text : pystr :=
  lit " Create a table from the text. Organize the information in a clear, tabular format." ++ nl ++
  lit "            Use markdown-style table formatting. Follow these guidelines:" ++ nl ++
  lit "            1. Use '|' to separate columns." ++ nl ++
  lit "            2. Use a row of '---' or ':---:' (for center alignment) or '---:' (for right alignment) to separate the header from the body." ++ nl ++
  lit "            3. Ensure proper alignment of the content for readability." ++ nl ++
  lit "            4. If the table is wide, consider using only essential columns to fit the data." ++ nl ++
  lit "            Example format:" ++ nl ++
  lit "            | Header1 | Header2 | Header3 |" ++ nl ++
  lit "            |---------|:-------:|--------:|" ++ nl ++
  lit "            | Left    | Center  |   Right |" ++ nl ++
  lit "            | Data    | Data    |    Data |" ++ nl ++
  lit "            ".

Definition List_text : pystr :=
  lit " Transform the text into a list. Break down the information into clear, concise points. Present the list in either bulleted or numbered form.".

(** The dict [prompts]. *)
Definition prompts : gmap pystr pystr :=
  list_to_map [
    (lit "Proofread", base_instruction ++ Proofread_text);
    (lit "Rewrite", base_instruction ++ Rewrite_text);
    (lit "Friendly", base_instruction ++ Friendly_text);
    (lit "Professional", base_instruction ++ Professional_text);
    (lit "Concise", base_instruction ++ Concise_text);
    (lit "Summary", base_instruction ++ Summary_text);
    (lit "Key Points", base_instruction ++ KeyPoints_text);
    (lit "Table", base_instruction ++ Table_text);
    (lit "List", base_instruction ++ List_text)
  ].

(** The f-string [full_prompt], given [prompts[option]] and the label that
    [detect_language(input_text)] returned. *)
Definition full_prompt (prompt label input_text : pystr) : pystr :=
  prompt ++ nl ++ nl ++ lit "Input text language: " ++ label ++ nl ++ nl ++ input_text.

Definition system_content : pystr :=
  lit "You are a helpful assistant that processes text according to specific instructions. You MUST ALWAYS respond in the EXACT SAME LANGUAGE as the input text. Never translate or change the language.".

(** The arguments of [client.chat.completions.create], with the key the
    client was built with. *)
Definition chat_request (key : PyObj) (user_content : pystr) : ChatRequest :=
  mkChatRequest key (lit "gpt-4o-mini")
    [ mkMessage (lit "system") system_content;
      mkMessage (lit "user") user_content ].

(** The nine operations the menu offers, by the string each handler passes. *)
Definition operations : list pystr :=
  [ lit "Proofread"; lit "Rewrite"; lit "Friendly"; lit "Professional";
    lit "Concise"; lit "Summary"; lit "Key Points"; lit "Table"; lit "List" ].

(** The instruction text of an operation. *)
Definition instruction_text (option : pystr) : pystr :=
  if decide (option = lit "Proofread") then Proofread_text
  else if decide (option = lit "Rewrite") then Rewrite_text
  else if decide (option = lit "Friendly") then Friendly_text
  else if decide (option = lit "Professional") then Professional_text
  else if decide (option = lit "Concise") then Concise_text
  else if decide (option = lit "Summary") then Summary_text
  else if decide (option = lit "Key Points") then KeyPoints_text
  else if decide (option = lit "Table") then Table_text
  else if decide (option = lit "List") then List_text
  else [].

Section WriteTools.

(** ** The methods of [MenuBarApp] *)

(** [langdetect.detect]: the ISO code of a text, or [None] when it raises.
    The classifier is randomised, so its answer may depend on how many
    calls came before. *)
Variable detect : nat → pystr → option pystr.

(** The chat endpoint behind [client.chat.completions.create]: what the
    n-th request sent by the process receives. *)
Variable chat_create : nat → ChatRequest → Outcome ChatResponse.

(** [markdown.markdown(text, extensions=['tables'])]. *)
Variable markdown : pystr → pystr.

(** The builtin [repr] on strings, the text of a [KeyError]. *)
Variable repr : pystr → pystr.

(** [show_error_message(title, message)]. *)
Definition show_error_message (title message : pystr) : M unit :=
  modify (add_ui (CriticalBox title message)).

(** The label [detect_language] returns, from what [detect(text)] did: the
    branches of its [if] on the code, and its [except] when [detect] raised. *)
Definition language_label (detected : option pystr) : pystr :=
  match detected with
  | Some lang =>
      if decide (lang = lit "pt") then lit "Portuguese (European)"
      else if decide (lang = lit "en") then lit "English"
      else lit "Other (" ++ lang ++ lit ")"
  | None => lit "Unknown"
  end.

(** [detect_language(text)]: one call to the classifier. *)
Definition detect_language (text : pystr) : M pystr := λ w,
  (Return (language_label (detect (detect_calls w) text)), bump_detect_calls w).

(** [get_selected_text()]. *)
Definition get_selected_text : M pystr :=
  try_except pyperclip_paste Exception (λ e,
    print (lit "Error accessing clipboard: " ++ exn_str e);;
    mret []).

(** [client.chat.completions.create(...)]: the request goes out, then the
    endpoint answers or the call raises. *)
Definition chat_completions_create (req : ChatRequest) : M ChatResponse := λ w,
  (chat_create (length (net w)) req, add_net req w).

(** [call_openai_api(option, input_text)]. *)
Definition call_openai_api (option input_text : pystr) : M pystr :=
  key ← gets api_key;
  prompt ← match prompts !! option with
           | Some p => mret p
           | None => raise (mkExn KeyError (repr option))
           end;
  label ← detect_language input_text;
  logging DEBUG (lit "Sending to API - Option: " ++ option);;
  logging DEBUG (lit "Full prompt: " ++ full_prompt prompt label input_text);;
  response ← chat_completions_create
               (chat_request key (full_prompt prompt label input_text));
  result ← match choices response with
           | [] => raise (mkExn IndexError (lit "list index out of range"))
           | choice :: _ =>
               match message_content choice with
               | None => raise (no_attribute PyNone (lit "strip"))
               | Some text => mret (strip text)
               end
           end;
  logging DEBUG (lit "Received from API: " ++ result);;
  mret result.

(** What the text widget of the result dialog shows. *)
Definition result_body (option processed_text : pystr) : Body :=
  if decide (option = lit "Table") then
    Html (lit "<h3>Option: " ++ option ++ lit "</h3>"
          ++ markdown processed_text
          ++ lit "<p>The processed text has been copied to your clipboard.</p>")
  else
    PlainText (lit "Option: " ++ option ++ nl ++ nl
               ++ processed_text ++ nl ++ nl
               ++ lit "The processed text has been copied to your clipboard.").

(** [show_result_dialog(option, input_text, processed_text)].  The dialog
    is run and closed by the user; what the user does inside it is not
    part of this method. *)
Definition show_result_dialog (option input_text processed_text : pystr) : M unit :=
  current ← gets current_dialog;
  match current with
  | Some d => modify (add_ui (DialogClosed d))
  | None => mret tt
  end;;
  modify (set_current_dialog (Some ProcessedTextWindow));;
  modify (add_ui (DialogExec ProcessedTextWindow (lit "Processed Text")
                    (result_body option processed_text))).

(** [process_option(option, input_text)]. *)
Definition process_option (option input_text : pystr) : M unit :=
  if bool_decide (input_text = []) then
    show_error_message (lit "No Text Selected")
      (lit "Please select some text before choosing an option.")
  else
    key ← gets api_key;
    if negb (truthy key) then
      show_error_message (lit "API Key Missing")
        (lit "Please provide an OpenAI API key to use this feature.")
    else
      print (lit "Processing '" ++ option ++ lit "' for text:");;
      print input_text;;
      try_except
        (processed_text ← call_openai_api option input_text;
         input_lang ← detect_language input_text;
         output_lang ← detect_language processed_text;
         when (negb (bool_decide (input_lang = output_lang)))
           (logging WARNING (lit "Language mismatch detected. Input: " ++ input_lang
                             ++ lit ", Output: " ++ output_lang);;
            show_error_message (lit "Language Mismatch")
              (lit "The API response is in a different language. Input: " ++ input_lang
               ++ lit ", Output: " ++ output_lang));;
         pyperclip_copy processed_text;;
         show_result_dialog option input_text processed_text)
        Exception
        (λ e, show_error_message (lit "Error")
                (lit "An error occurred while processing the text: " ++ exn_str e)).

(** The nine menu handlers [on_proofread] ... [on_list]: each passes its
    operation name and the clipboard text. *)
Definition on_menu (option : pystr) : M unit :=
  input_text ← get_selected_text;
  process_option option input_text.

(** [save_api_key(api_key)]. *)
Definition save_api_key (key : PyObj) : M unit :=
  modify (set_config_json (Document (PyDict {[ lit "api_key" := key ]}))).

(** [json.load(open('config.json'))]. *)
Definition load_config : M PyObj := λ w,
  match config_json w with
  | Absent => (Raise (mkExn FileNotFoundError
                 (lit "[Errno 2] No such file or directory: 'config.json'")), w)
  | NotJson err => (Raise (mkExn JSONDecodeError err), w)
  | Document j => (Return j, w)
  end.

(** [config.get('api_key')]. *)
Definition config_get (config : PyObj) (key : pystr) : M PyObj :=
  match config with
  | PyDict d => mret (default PyNone (d !! key))
  | _ => raise (no_attribute config (lit "get"))
  end.

(** [load_api_key()].  [reply] is what the user answers if the input box
    comes up: the text of the field and whether OK was pressed. *)
Definition load_api_key (reply : pystr * bool) : M unit :=
  try_except
    (config ← load_config;
     key ← config_get config (lit "api_key");
     modify (set_api_key key))
    (only FileNotFoundError)
    (λ _, modify (set_api_key PyNone));;
  key ← gets api_key;
  when (negb (truthy key))
    (modify (add_ui (InputBox (lit "OpenAI API Key") (lit "Enter your OpenAI API Key:")));;
     modify (set_api_key (PyStr reply.1));;
     if reply.2 && truthy (PyStr reply.1) then
       save_api_key (PyStr reply.1)
     else
       print (lit "No API key provided. AI processing will not work.")).

(** ** Image generation *)

(** The builtin [str] on an object that is not a string: the [__str__] of
    its class. *)
Variable str_other : PyObj → pystr.

(** [str(x)]. *)
Definition py_str (x : PyObj) : pystr :=
  match x with
  | PyStr s => s
  | _ => str_other x
  end.

(** The [input] dict passed to [replicate.run]. *)
Record ReplicateInput := mkReplicateInput {
  in_prompt : pystr;
  in_aspect_ratio : pystr;
  in_disable_safety_checker : bool
}.

(** [replicate.run(model, input=...)]. *)
Variable replicate_run : pystr → ReplicateInput → Outcome PyObj.

(** The fields of an [ImageGenerationThread]. *)
Record ImageGenerationThread := mkImageGenerationThread {
  model : pystr;
  prompt : pystr;
  aspect_ratio : pystr;
  disable_safety : bool
}.

(** The signal a worker emits, once. *)
Inductive ThreadSignal :=
| finished (output : PyObj)
| error (msg : pystr).

(** [ImageGenerationThread.run()]. *)
Definition run (self : ImageGenerationThread) : ThreadSignal :=
  match replicate_run (model self)
          (mkReplicateInput (prompt self) (aspect_ratio self) (disable_safety self)) with
  | Return output =>
      match output with
      | PyList items => finished (PyList ((λ url, PyStr (py_str url)) <$> items))
      | _ => finished (PyList [PyStr (py_str output)])
      end
  | Raise e => error (exn_str e)
  end.

(** What [image_label] shows. *)
Inductive ImageLabel :=
| LabelEmpty
| LabelText (t : pystr)
| LabelPixmap (data : list Byte.byte).

(** The state of an [ImageGeneratorDialog]: its attribute and its widgets. *)
Record Dialog := mkDialog {
  last_prompt : pystr;
  model_combo : pystr;
  prompt_input : pystr;
  aspect_input : pystr;
  safety_checker : bool;
  generate_button : bool;                   (* enabled? *)
  status_label : pystr;
  image_label : ImageLabel;
  output_url : pystr;
  thread : option ImageGenerationThread;    (* the worker last started *)
  download_thread : option pystr;           (* url of the preview download last started *)
  console : list pystr;                     (* lines printed *)
  saved : list (pystr * list Byte.byte)     (* files written *)
}.

(** [ImageGeneratorDialog.__init__]: the widgets as [initUI] leaves them. *)
Definition new_dialog : Dialog :=
  mkDialog [] (lit "black-forest-labs/flux-dev") [] (lit "16:9") false true
           [] LabelEmpty [] None None [] [].

Definition set_last_prompt (p : pystr) (d : Dialog) : Dialog :=
  mkDialog p (model_combo d) (prompt_input d) (aspect_input d) (safety_checker d)
           (generate_button d) (status_label d) (image_label d) (output_url d)
           (thread d) (download_thread d) (console d) (saved d).

Definition set_prompt_input (p : pystr) (d : Dialog) : Dialog :=
  mkDialog (last_prompt d) (model_combo d) p (aspect_input d) (safety_checker d)
           (generate_button d) (status_label d) (image_label d) (output_url d)
           (thread d) (download_thread d) (console d) (saved d).

Definition set_generate_button (b : bool) (d : Dialog) : Dialog :=
  mkDialog (last_prompt d) (model_combo d) (prompt_input d) (aspect_input d) (safety_checker d)
           b (status_label d) (image_label d) (output_url d)
           (thread d) (download_thread d) (console d) (saved d).

Definition set_status_label (t : pystr) (d : Dialog) : Dialog :=
  mkDialog (last_prompt d) (model_combo d) (prompt_input d) (aspect_input d) (safety_checker d)
           (generate_button d) t (image_label d) (output_url d)
           (thread d) (download_thread d) (console d) (saved d).

Definition set_image_label (l : ImageLabel) (d : Dialog) : Dialog :=
  mkDialog (last_prompt d) (model_combo d) (prompt_input d) (aspect_input d) (safety_checker d)
           (generate_button d) (status_label d) l (output_url d)
           (thread d) (download_thread d) (console d) (saved d).

Definition set_output_url (u : pystr) (d : Dialog) : Dialog :=
  mkDialog (last_prompt d) (model_combo d) (prompt_input d) (aspect_input d) (safety_checker d)
           (generate_button d) (status_label d) (image_label d) u
           (thread d) (download_thread d) (console d) (saved d).

Definition set_thread (t : ImageGenerationThread) (d : Dialog) : Dialog :=
  mkDialog (last_prompt d) (model_combo d) (prompt_input d) (aspect_input d) (safety_checker d)
           (generate_button d) (status_label d) (image_label d) (output_url d)
           (Some t) (download_thread d) (console d) (saved d).

Definition set_download_thread (u : pystr) (d : Dialog) : Dialog :=
  mkDialog (last_prompt d) (model_combo d) (prompt_input d) (aspect_input d) (safety_checker d)
           (generate_button d) (status_label d) (image_label d) (output_url d)
           (thread d) (Some u) (console d) (saved d).

Definition add_console (line : pystr) (d : Dialog) : Dialog :=
  mkDialog (last_prompt d) (model_combo d) (prompt_input d) (aspect_input d) (safety_checker d)
           (generate_button d) (status_label d) (image_label d) (output_url d)
           (thread d) (download_thread d) (console d ++ [line]) (saved d).

Definition add_saved (name : pystr) (data : list Byte.byte) (d : Dialog) : Dialog :=
  mkDialog (last_prompt d) (model_combo d) (prompt_input d) (aspect_input d) (safety_checker d)
           (generate_button d) (status_label d) (image_label d) (output_url d)
           (thread d) (download_thread d) (console d) (saved d ++ [(name, data)]).

(** The events the dialog reacts to: button clicks, edits of the prompt
    field, and the signals of its workers.  A click on the download button
    comes with what [requests.get] then gives, with the file name the user
    picks, and with the exception [open] or [write] raises on that file, if
    any. *)
Inductive DialogEvent :=
| GenerateClicked
| LastPromptClicked
| DownloadClicked (response : Outcome (list Byte.byte)) (file_name : pystr)
    (write_error : option Exn)
| PromptEdited (text : pystr)
| GenerationSignal (s : ThreadSignal)
| PreviewLoaded (image_data : list Byte.byte)
| PreviewFailed (e : pystr).

(** [generate_image()]. *)
Definition generate_image (d : Dialog) : Dialog :=
  let prompt := prompt_input d in
  let aspect_ratio := aspect_input d in
  let disable_safety := safety_checker d in
  let model := model_combo d in
  let d := set_status_label (lit "Generating...") d in
  let d := set_generate_button false d in
  let d := set_image_label LabelEmpty d in
  let d := set_image_label (LabelText (lit "Generating image...")) d in
  set_thread (mkImageGenerationThread model prompt aspect_ratio disable_safety) d.

(** [on_generation_finished(output)]. *)
Definition on_generation_finished (output : PyObj) (d : Dialog) : Dialog :=
  let d :=
    match output with
    | PyList (first :: rest) =>
        let url := py_str first in
        let d := set_output_url url d in
        let d := set_status_label
                   (lit "Generated " ++ str_of_nat (length (first :: rest))
                    ++ lit " images. Displaying the first one.") d in
        let d := add_console (lit "Generated image URL: " ++ url) d in
        set_download_thread url d
    | _ => set_status_label (lit "No images were generated.") d
    end in
  let d := set_last_prompt (prompt_input d) d in
  set_generate_button true d.

(** [display_image(image_data)]. *)
Definition display_image (image_data : list Byte.byte) (d : Dialog) : Dialog :=
  let d := set_image_label (LabelPixmap image_data) d in
  set_status_label (lit "Image generated and displayed successfully.") d.

(** [on_generation_error(error_msg)]. *)
Definition on_generation_error (error_msg : pystr) (d : Dialog) : Dialog :=
  let d := set_status_label (lit "Error generating image: " ++ error_msg) d in
  let d := set_generate_button true d in
  let d := set_image_label LabelEmpty d in
  set_image_label (LabelText (lit "Error generating image")) d.

(** [use_last_prompt()]. *)
Definition use_last_prompt (d : Dialog) : Dialog :=
  if negb (bool_decide (last_prompt d = [])) then set_prompt_input (last_prompt d) d
  else set_status_label (lit "No previous prompt available.") d.

(** [download_image()]: the dialog it leaves, and the exception that escapes
    the slot when the failure is not a [requests.RequestException] (an
    [OSError] of [open] or [write] is none). *)
Definition download_image (response : Outcome (list Byte.byte)) (file_name : pystr)
    (write_error : option Exn) (d : Dialog) : Outcome unit * Dialog :=
  let url := output_url d in
  let failed (e : Exn) :=
    if only RequestException (exn_class e) then
      (Return tt, set_status_label (lit "Error downloading image: " ++ exn_str e) d)
    else (Raise e, d) in
  if bool_decide (url = []) then
    (Return tt, set_status_label (lit "No image URL available. Generate an image first.") d)
  else
    match response with
    | Return data =>
        if negb (bool_decide (file_name = [])) then
          match write_error with
          | Some e => failed e
          | None =>
              let d := add_saved file_name data d in
              (Return tt,
               set_status_label (lit "Image downloaded successfully: " ++ file_name) d)
          end
        else
          (Return tt, set_status_label (lit "Download cancelled.") d)
    | Raise e => failed e
    end.

(** The slot each event is connected to. *)
Definition handle (ev : DialogEvent) (d : Dialog) : Dialog :=
  match ev with
  | GenerateClicked => generate_image d
  | LastPromptClicked => use_last_prompt d
  | DownloadClicked response file_name write_error =>
      (download_image response file_name write_error d).2
  | PromptEdited text => set_prompt_input text d
  | GenerationSignal (finished output) => on_generation_finished output d
  | GenerationSignal (error msg) => on_generation_error msg d
  | PreviewLoaded image_data => display_image image_data d
  | PreviewFailed e => set_status_label (lit "Error loading preview: " ++ e) d
  end.

(** ** Questions about a result *)

(** The f-string [changes_summary] of [handle_qa]. *)
Definition changes_summary (input_text processed_text : pystr) : pystr :=
  lit "Changes made: The text was transformed from the original version to a processed version. Length changed from "
  ++ str_of_nat (length input_text) ++ lit " to "
  ++ str_of_nat (length processed_text) ++ lit " characters.".

(** The f-string [prompt] of [handle_qa]. *)
Definition qa_prompt (input_text processed_text question : pystr) : pystr :=
  nl ++
  lit "            Context: " ++ changes_summary input_text processed_text ++ nl ++
  lit "            " ++ nl ++
  lit "            Text to analyze: " ++ processed_text ++ nl ++
  lit "            " ++ nl ++
  lit "            Question: " ++ question ++ nl ++
  nl ++
  lit "            Please provide a detailed answer about the text, focusing specifically on addressing the question asked." ++ nl ++
  lit "            Respond in the same language as the text." ++ nl ++
  lit "            ".

Definition qa_system_content : pystr :=
  lit "You are a helpful assistant analyzing text and answering questions about it.".

(** The arguments of [client.chat.completions.create] in [handle_qa]. *)
Definition qa_request (key : PyObj) (input_text processed_text question : pystr)
    : ChatRequest :=
  mkChatRequest key (lit "gpt-4o-mini")
    [ mkMessage (lit "system") qa_system_content;
      mkMessage (lit "user") (qa_prompt input_text processed_text question) ].

(** [handle_qa(input_text, processed_text, question)]. *)
Definition handle_qa (input_text processed_text question : pystr) : M pystr :=
  if bool_decide (strip question = []) then
    mret (lit "Please enter a question.")
  else
    try_except
      (key ← gets api_key;
       response ← chat_completions_create
                    (qa_request key input_text processed_text question);
       match choices response with
       | [] => raise (mkExn IndexError (lit "list index out of range"))
       | choice :: _ =>
           match message_content choice with
           | None => raise (no_attribute PyNone (lit "strip"))
           | Some text => mret (strip text)
           end
       end)
      Exception
      (λ e, logging ERROR (lit "Error in handle_qa: " ++ exn_str e);;
            mret (lit "Error processing question: " ++ exn_str e)).

(** ** The preview download *)

(** [requests.get(url)] followed by [raise_for_status()]: the body of the
    response, or the exception either of the two raises. *)
Variable requests_get : pystr → Outcome (list Byte.byte).

(** [ImageDownloadThread.run()], for the thread built with [url]: the event
    its one signal delivers to the dialog. *)
Definition download_run (url : pystr) : DialogEvent :=
  match requests_get url with
  | Return content => PreviewLoaded content
  | Raise e => PreviewFailed (exn_str e)
  end.

(** The dialog once the worker last started has run and its signal is
    handled; nothing happens when no worker was started. *)
Definition generation_done (d : Dialog) : Dialog :=
  match thread d with
  | Some t => handle (GenerationSignal (run t)) d
  | None => d
  end.

(** The dialog once the preview download last started has run and its
    signal is handled. *)
Definition preview_done (d : Dialog) : Dialog :=
  match download_thread d with
  | Some url => handle (download_run url) d
  | None => d
  end.

(** ** Vocabulary of the statements *)

(** A run of whitespace. *)
Definition all_space (s : pystr) : Prop := Forall (λ c, isspace c = true) s.

(** The request [call_openai_api] sends from world [w], given the entry of
    [prompts] for the operation. *)
Definition request_sent (prompt input_text : pystr) (w : World) : ChatRequest :=
  chat_request (api_key w)
    (full_prompt prompt (language_label (detect (detect_calls w) input_text)) input_text).

(** The world [call_openai_api] leaves once its request is out. *)
Definition after_request (option prompt input_text : pystr) (w : World) : World :=
  let label := language_label (detect (detect_calls w) input_text) in
  add_net (request_sent prompt input_text w)
    (add_log DEBUG (lit "Full prompt: " ++ full_prompt prompt label input_text)
       (add_log DEBUG (lit "Sending to API - Option: " ++ option)
          (bump_detect_calls w))).

(** The world when the [try] of [process_option] starts: two lines printed. *)
Definition started (option input_text : pystr) (w : World) : World :=
  add_stdout input_text
    (add_stdout (lit "Processing '" ++ option ++ lit "' for text:") w).

(** The boxes [process_option] shows: no text selected, no key, an
    exception, a language mismatch; and the result dialog. *)
Definition no_text_box : UIEvent :=
  CriticalBox (lit "No Text Selected")
    (lit "Please select some text before choosing an option.").

Definition key_missing_box : UIEvent :=
  CriticalBox (lit "API Key Missing")
    (lit "Please provide an OpenAI API key to use this feature.").

Definition error_box (e : Exn) : UIEvent :=
  CriticalBox (lit "Error")
    (lit "An error occurred while processing the text: " ++ exn_str e).

Definition mismatch_box (input_lang output_lang : pystr) : UIEvent :=
  CriticalBox (lit "Language Mismatch")
    (lit "The API response is in a different language. Input: " ++ input_lang
     ++ lit ", Output: " ++ output_lang).

Definition result_dialog (option processed_text : pystr) : UIEvent :=
  DialogExec ProcessedTextWindow (lit "Processed Text")
    (result_body option processed_text).

(** The [close()] that [show_result_dialog] performs on a dialog left over. *)
Definition closing (w : World) : list UIEvent :=
  match current_dialog w with
  | Some d => [DialogClosed d]
  | None => []
  end.

(** The input box of [load_api_key]. *)
Definition key_box : UIEvent :=
  InputBox (lit "OpenAI API Key") (lit "Enter your OpenAI API Key:").

(** The document [save_api_key] writes. *)
Definition key_document (key : pystr) : File :=
  Document (PyDict {[ lit "api_key" := PyStr key ]}).

(** A trimmed text: it neither starts nor ends with whitespace. *)
Definition trimmed (s : pystr) : Prop :=
  (∀ c, head s = Some c → isspace c = false)
  ∧ (∀ c, last s = Some c → isspace c = false).

(** At most one request went out between two worlds, with the key given. *)
Definition at_most_one_request (key : PyObj) (w w' : World) : Prop :=
  net w' = net w ∨ ∃ req, net w' = net w ++ [req] ∧ req_api_key req = key.

(** No usable key is stored: the file is absent, or it holds a dict whose
    [api_key] is missing or falsy. *)
Definition no_stored_key (w : World) : Prop :=
  config_json w = Absent
  ∨ ∃ d, config_json w = Document (PyDict d)
         ∧ truthy (default PyNone (d !! lit "api_key")) = false.

Definition no_key_line : pystr :=
  lit "No API key provided. AI processing will not work.".

(** The URL the dialog takes from what the service returned: the string
    form of the first element of a list, of the value itself otherwise;
    none for the empty list. *)
Definition first_url (output : PyObj) : option pystr :=
  match output with
  | PyList [] => None
  | PyList (first :: _) => Some (py_str first)
  | _ => Some (py_str output)
  end.

(** How many images the status line announces. *)
Definition image_count (output : PyObj) : nat :=
  match output with
  | PyList items => length items
  | _ => 1
  end.

(** The call [run] makes for the worker that [generate_image] starts. *)
Definition service_call (d : Dialog) : Outcome PyObj :=
  replicate_run (model_combo d)
    (mkReplicateInput (prompt_input d) (aspect_input d) (safety_checker d)).

(** * Properties *)

Arguments lit : simpl never.
Arguments full_prompt : simpl never.
Arguments chat_request : simpl never.
Arguments strip : simpl never.
Arguments result_body : simpl never.
Arguments language_label : simpl never.

(** ** Stripping *)

Lemma lstrip_split (s : pystr) :
  ∃ l, s = l ++ lstrip s ∧ all_space l.
Proof.
  induction s as [|c s [l [Hs Hl]]]; simpl.
  - exists []. split; [reflexivity | constructor].
  - destruct (isspace c) eqn:Hc.
    + exists (c :: l). split; [simpl; congruence | by constructor].
    + exists []. split; [reflexivity | constructor].
Qed.

Lemma lstrip_head (s : pystr) (c : N) (r : pystr) :
  lstrip s = c :: r → isspace c = false.
Proof.
  induction s as [|a s IH]; simpl; [discriminate |].
  destruct (isspace a) eqn:Ha; [exact IH |].
  intros [= -> _]. exact Ha.
Qed.

Lemma rstrip_split (s : pystr) :
  ∃ r, s = rstrip s ++ r ∧ all_space r.
Proof.
  destruct (lstrip_split (reverse s)) as [l [Hs Hl]].
  exists (reverse l). split.
  - unfold rstrip. rewrite <- reverse_app, <- Hs. by rewrite reverse_involutive.
  - unfold all_space. by rewrite Forall_reverse.
Qed.

Lemma rstrip_last (s : pystr) (c : N) :
  last (rstrip s) = Some c → isspace c = false.
Proof.
  unfold rstrip. rewrite last_reverse.
  destruct (lstrip (reverse s)) as [|a r] eqn:E; simpl; [discriminate |].
  intros [= ->]. eapply lstrip_head, E.
Qed.

Lemma strip_split (s : pystr) :
  ∃ l r, s = l ++ strip s ++ r ∧ all_space l ∧ all_space r.
Proof.
  destruct (lstrip_split s) as [l [Hs Hl]].
  destruct (rstrip_split (lstrip s)) as [r [Ht Hr]].
  exists l, r. split; [| done].
  unfold strip. by rewrite <- Ht.
Qed.

Lemma strip_head (s : pystr) (c : N) :
  head (strip s) = Some c → isspace c = false.
Proof.
  destruct (rstrip_split (lstrip s)) as [r [Ht _]].
  unfold strip. destruct (rstrip (lstrip s)) as [|a t] eqn:E; simpl; [discriminate |].
  intros [= ->]. eapply lstrip_head. rewrite Ht. reflexivity.
Qed.

Lemma strip_last (s : pystr) (c : N) :
  last (strip s) = Some c → isspace c = false.
Proof. apply rstrip_last. Qed.

(** ** Running a method *)

Lemma run_bind {A B} (m : M A) (k : A → M B) (w : World) :
  (m ≫= k) w =
  match m w with
  | (Return a, w') => k a w'
  | (Raise e, w') => (Raise e, w')
  end.
Proof. reflexivity. Qed.

Lemma run_bind_return {A B} (m : M A) (k : A → M B) (w w' : World) (a : A) :
  m w = (Return a, w') → (m ≫= k) w = k a w'.
Proof. intros H. by rewrite run_bind, H. Qed.

Lemma run_bind_raise {A B} (m : M A) (k : A → M B) (w w' : World) (e : Exn) :
  m w = (Raise e, w') → (m ≫= k) w = (Raise e, w').
Proof. intros H. by rewrite run_bind, H. Qed.

Lemma run_try_return {A} (m : M A) catches (h : Exn → M A) (w w' : World) (a : A) :
  m w = (Return a, w') → try_except m catches h w = (Return a, w').
Proof. intros H. unfold try_except. by rewrite H. Qed.

Lemma run_try_caught {A} (m : M A) (h : Exn → M A) (w w' : World) (e : Exn) :
  m w = (Raise e, w') → try_except m Exception h w = h e w'.
Proof. intros H. unfold try_except. by rewrite H. Qed.

(** ** The prompt and the request *)

Lemma prompts_lookup (option : pystr) :
  option ∈ operations →
  prompts !! option = Some (base_instruction ++ instruction_text option).
Proof.
  unfold operations. intros H.
  repeat (apply elem_of_cons in H as [-> | H]); try (vm_compute; reflexivity).
  by apply elem_of_nil in H.
Qed.

(** Unfolds the monad and the primitive effects, and nothing else. *)
Ltac run_method :=
  cbv beta iota zeta delta
    [mbind M_bind mret M_ret raise try_except gets modify when Exception
     print logging pyperclip_paste pyperclip_copy show_error_message
     detect_language chat_completions_create].

Lemma call_openai_api_unknown (option input_text : pystr) (w : World) :
  prompts !! option = None →
  call_openai_api option input_text w = (Raise (mkExn KeyError (repr option)), w).
Proof. intros H. unfold call_openai_api. run_method. rewrite H. reflexivity. Qed.

Lemma call_openai_api_run (option input_text prompt : pystr) (w : World) :
  prompts !! option = Some prompt →
  call_openai_api option input_text w =
  let w1 := after_request option prompt input_text w in
  match chat_create (length (net w)) (request_sent prompt input_text w) with
  | Raise e => (Raise e, w1)
  | Return response =>
      match choices response with
      | [] => (Raise (mkExn IndexError (lit "list index out of range")), w1)
      | choice :: _ =>
          match message_content choice with
          | None => (Raise (no_attribute PyNone (lit "strip")), w1)
          | Some text =>
              (Return (strip text),
               add_log DEBUG (lit "Received from API: " ++ strip text) w1)
          end
      end
  end.
Proof.
  intros H. unfold call_openai_api. run_method. rewrite H.
  unfold request_sent, after_request. cbn [net add_log bump_detect_calls api_key].
  destruct (chat_create _ _) as [response | e]; [| reflexivity].
  destruct (choices response) as [| choice rest]; [reflexivity |].
  destruct (message_content choice) as [text |]; reflexivity.
Qed.

Lemma call_openai_api_net (option input_text prompt : pystr) (w : World) :
  prompts !! option = Some prompt →
  net (call_openai_api option input_text w).2
  = net w ++ [request_sent prompt input_text w].
Proof.
  intros H. rewrite (call_openai_api_run _ _ _ _ H). cbv zeta.
  destruct (chat_create _ _) as [response | e]; [| reflexivity].
  destruct (choices response) as [| choice rest]; [reflexivity |].
  destruct (message_content choice) as [text |]; reflexivity.
Qed.

(** C1.  For each of the nine operations and every input text, the prompt of
    the request that [call_openai_api] sends is the language-preservation
    preamble, then the instruction text of the operation, then the line
    naming the detected language of the input, then the input; so it
    contains the preamble, the instruction text and the language label
    verbatim. *)
Theorem prompt_has_preamble_instruction_language
    (option input_text : pystr) (w : World) :
  option ∈ operations →
  ∃ label fp,
    (detect_language input_text w).1 = Return label
    ∧ net (call_openai_api option input_text w).2
      = net w ++ [chat_request (api_key w) fp]
    ∧ fp = base_instruction ++ instruction_text option
           ++ nl ++ nl ++ lit "Input text language: " ++ label
           ++ nl ++ nl ++ input_text
    ∧ occurs_in base_instruction fp
    ∧ occurs_in (instruction_text option) fp
    ∧ occurs_in label fp.
Proof.
  intros Hop. pose proof (prompts_lookup _ Hop) as Hp.
  set (label := language_label (detect (detect_calls w) input_text)).
  exists label, (full_prompt (base_instruction ++ instruction_text option) label input_text).
  split; [reflexivity |].
  split; [exact (call_openai_api_net _ _ _ _ Hp) |].
  unfold full_prompt. rewrite <- !(assoc_L (++)).
  split; [reflexivity |].
  split; [| split].
  - exists [], (instruction_text option ++ nl ++ nl ++ lit "Input text language: "
                ++ label ++ nl ++ nl ++ input_text). reflexivity.
  - exists base_instruction, (nl ++ nl ++ lit "Input text language: "
                              ++ label ++ nl ++ nl ++ input_text).
    reflexivity.
  - exists (base_instruction ++ instruction_text option ++ nl ++ nl
            ++ lit "Input text language: "), (nl ++ nl ++ input_text).
    by rewrite <- !(assoc_L (++)).
Qed.

(** C2, as the code has it.  [detect_language] always returns a label:
    "Portuguese (European)" for the code pt, "English" for en,
    "Other (<c>)" (with a space before the parenthesis) for any other code c,
    and "Unknown" when the classifier raises. *)
Theorem detect_language_labels (text : pystr) (w : World) :
  (∃ label, detect_language text w = (Return label, bump_detect_calls w))
  ∧ (detect (detect_calls w) text = Some (lit "pt") →
     (detect_language text w).1 = Return (lit "Portuguese (European)"))
  ∧ (detect (detect_calls w) text = Some (lit "en") →
     (detect_language text w).1 = Return (lit "English"))
  ∧ (∀ c, detect (detect_calls w) text = Some c → c ≠ lit "pt" → c ≠ lit "en" →
     (detect_language text w).1 = Return (lit "Other (" ++ c ++ lit ")"))
  ∧ (detect (detect_calls w) text = None →
     (detect_language text w).1 = Return (lit "Unknown")).
Proof.
  unfold detect_language, language_label. simpl.
  split; [eexists; reflexivity |].
  repeat split.
  - intros ->. reflexivity.
  - intros ->. reflexivity.
  - intros c -> Hpt Hen. by rewrite !decide_False.
  - intros ->. reflexivity.
Qed.

(** C3.  When the endpoint answers, [call_openai_api] returns the content of
    the first choice stripped: the content is the result between two runs
    of whitespace, and the result neither starts nor ends with whitespace. *)
Theorem call_openai_api_returns_stripped_first_choice
    (option input_text prompt : pystr) (w : World)
    (response : ChatResponse) (choice : Choice) (rest : list Choice) (text : pystr) :
  prompts !! option = Some prompt →
  chat_create (length (net w)) (request_sent prompt input_text w) = Return response →
  choices response = choice :: rest →
  message_content choice = Some text →
  (call_openai_api option input_text w).1 = Return (strip text)
  ∧ (∃ l r, text = l ++ strip text ++ r ∧ all_space l ∧ all_space r)
  ∧ (∀ c, head (strip text) = Some c → isspace c = false)
  ∧ (∀ c, last (strip text) = Some c → isspace c = false).
Proof.
  intros Hp Hcall Hch Htext.
  rewrite (call_openai_api_run _ _ _ _ Hp), Hcall, Hch, Htext. cbv zeta.
  split; [reflexivity |].
  split; [apply strip_split |].
  split; [apply strip_head | apply strip_last].
Qed.

(** ** [process_option] *)

Lemma process_option_empty (option : pystr) (w : World) :
  process_option option [] w = (Return tt, add_ui no_text_box w).
Proof. reflexivity. Qed.

Lemma process_option_no_key (option input_text : pystr) (w : World) :
  input_text ≠ [] → truthy (api_key w) = false →
  process_option option input_text w = (Return tt, add_ui key_missing_box w).
Proof.
  intros Hin Hkey. unfold process_option.
  rewrite (bool_decide_eq_false_2 _ Hin). run_method. rewrite Hkey. reflexivity.
Qed.

Lemma call_openai_api_frame (option input_text : pystr) (w : World) :
  let w1 := (call_openai_api option input_text w).2 in
  api_key w1 = api_key w ∧ current_dialog w1 = current_dialog w
  ∧ clipboard w1 = clipboard w ∧ ui w1 = ui w ∧ config_json w1 = config_json w.
Proof.
  destruct (prompts !! option) as [prompt |] eqn:Hp.
  - rewrite (call_openai_api_run _ _ _ _ Hp). cbv zeta.
    destruct (chat_create _ _) as [response | e]; [| done].
    destruct (choices response) as [| choice rest]; [done |].
    destruct (message_content choice) as [text |]; done.
  - by rewrite (call_openai_api_unknown _ _ _ Hp).
Qed.

Lemma process_option_raised (option input_text : pystr) (w w1 : World) (e : Exn) :
  input_text ≠ [] → truthy (api_key w) = true →
  call_openai_api option input_text (started option input_text w) = (Raise e, w1) →
  process_option option input_text w = (Return tt, add_ui (error_box e) w1).
Proof.
  intros Hin Hkey Hcall. unfold process_option, started in *.
  rewrite (bool_decide_eq_false_2 _ Hin). run_method.
  rewrite Hkey. cbv beta iota delta [negb]. rewrite Hcall. reflexivity.
Qed.

Lemma call_openai_api_copy_error (option input_text : pystr) (w : World) :
  copy_error (call_openai_api option input_text w).2 = copy_error w.
Proof.
  destruct (prompts !! option) as [prompt |] eqn:Hp.
  - rewrite (call_openai_api_run _ _ _ _ Hp). cbv zeta.
    destruct (chat_create _ _) as [response | e]; [| done].
    destruct (choices response) as [| choice rest]; [done |].
    destruct (message_content choice) as [text |]; done.
  - by rewrite (call_openai_api_unknown _ _ _ Hp).
Qed.

Lemma process_option_returned (option input_text processed_text : pystr) (w w1 : World) :
  input_text ≠ [] → truthy (api_key w) = true →
  call_openai_api option input_text (started option input_text w)
    = (Return processed_text, w1) →
  copy_error w1 = None →
  let input_lang := language_label (detect (detect_calls w1) input_text) in
  let output_lang := language_label (detect (S (detect_calls w1)) processed_text) in
  ∃ w', process_option option input_text w = (Return tt, w')
    ∧ clipboard w' = processed_text
    ∧ ui w' = ui w1
              ++ (if decide (input_lang = output_lang) then []
                  else [mismatch_box input_lang output_lang])
              ++ closing w1 ++ [result_dialog option processed_text]
    ∧ net w' = net w1
    ∧ current_dialog w' = Some ProcessedTextWindow.
Proof.
  intros Hin Hkey Hcall Hcopy input_lang output_lang.
  unfold process_option, show_result_dialog, closing, started in *.
  rewrite (bool_decide_eq_false_2 _ Hin). run_method.
  rewrite Hkey. cbv beta iota delta [negb]. rewrite Hcall.
  cbn [detect_calls bump_detect_calls].
  fold input_lang output_lang.
  destruct (decide (input_lang = output_lang)) as [Heq | Hne].
  - rewrite (bool_decide_eq_true_2 _ Heq). cbn. rewrite Hcopy. cbn.
    destruct (current_dialog w1); eexists; repeat split; cbn; by rewrite ?app_nil_r, <- ?(assoc_L (++)).
  - rewrite (bool_decide_eq_false_2 _ Hne). cbn. rewrite Hcopy. cbn.
    destruct (current_dialog w1); eexists; repeat split; cbn; by rewrite <- ?(assoc_L (++)).
Qed.

Lemma process_option_copy_failed
    (option input_text processed_text : pystr) (w w1 : World) (e : Exn) :
  input_text ≠ [] → truthy (api_key w) = true →
  call_openai_api option input_text (started option input_text w)
    = (Return processed_text, w1) →
  copy_error w1 = Some e →
  let input_lang := language_label (detect (detect_calls w1) input_text) in
  let output_lang := language_label (detect (S (detect_calls w1)) processed_text) in
  ∃ w', process_option option input_text w = (Return tt, w')
    ∧ clipboard w' = clipboard w1
    ∧ ui w' = ui w1
              ++ (if decide (input_lang = output_lang) then []
                  else [mismatch_box input_lang output_lang])
              ++ [error_box e]
    ∧ net w' = net w1
    ∧ api_key w' = api_key w1
    ∧ config_json w' = config_json w1.
Proof.
  intros Hin Hkey Hcall Hcopy input_lang output_lang.
  unfold process_option, started in *.
  rewrite (bool_decide_eq_false_2 _ Hin). run_method.
  rewrite Hkey. cbv beta iota delta [negb]. rewrite Hcall.
  cbn [detect_calls bump_detect_calls].
  fold input_lang output_lang.
  destruct (decide (input_lang = output_lang)) as [Heq | Hne].
  - rewrite (bool_decide_eq_true_2 _ Heq). cbn. rewrite Hcopy. cbn.
    eexists; repeat split.
  - rewrite (bool_decide_eq_false_2 _ Hne). cbn. rewrite Hcopy. cbn.
    eexists; repeat split; cbn; by rewrite <- ?(assoc_L (++)).
Qed.

(** C4, as the code has it.  With no API key configured, no request is
    sent, whatever the input; and when the input text is not empty, the
    only effect of the invocation is the "API Key Missing" box. *)
Theorem missing_key_blocks_request (option input_text : pystr) (w : World) :
  truthy (api_key w) = false →
  net (process_option option input_text w).2 = net w
  ∧ (input_text ≠ [] →
     process_option option input_text w = (Return tt, add_ui key_missing_box w)).
Proof.
  intros Hkey. split.
  - destruct (decide (input_text = [])) as [-> | Hin].
    + by rewrite process_option_empty.
    + by rewrite process_option_no_key.
  - intros Hin. by apply process_option_no_key.
Qed.

(** C5, as the code has it.  When [call_openai_api] returns a text and the
    clipboard can be written, [process_option] ends normally with that text
    on the clipboard and in the result dialog, shown last; if the labels of
    input and output differ, the "Language Mismatch" box comes before the
    dialog, and if they are equal no box is shown.  When writing the
    clipboard raises, the "Error" box takes the place of the dialog and the
    clipboard is as it was, with or without a mismatch. *)
Theorem language_mismatch_warns_without_blocking
    (option input_text processed_text : pystr) (w w1 : World) :
  input_text ≠ [] → truthy (api_key w) = true →
  call_openai_api option input_text (started option input_text w)
    = (Return processed_text, w1) →
  let input_lang := language_label (detect (detect_calls w1) input_text) in
  let output_lang := language_label (detect (S (detect_calls w1)) processed_text) in
  (copy_error w = None →
   ∃ w', process_option option input_text w = (Return tt, w')
     ∧ clipboard w' = processed_text
     ∧ last (ui w') = Some (result_dialog option processed_text)
     ∧ (input_lang ≠ output_lang →
        ui w' = ui w ++ [mismatch_box input_lang output_lang]
                ++ closing w ++ [result_dialog option processed_text])
     ∧ (input_lang = output_lang →
        ui w' = ui w ++ closing w ++ [result_dialog option processed_text]))
  ∧ (∀ e, copy_error w = Some e →
     ∃ w', process_option option input_text w = (Return tt, w')
       ∧ clipboard w' = clipboard w
       ∧ ui w' = ui w
                 ++ (if decide (input_lang = output_lang) then []
                     else [mismatch_box input_lang output_lang])
                 ++ [error_box e]).
Proof.
  intros Hin Hkey Hcall input_lang output_lang.
  pose proof (call_openai_api_frame option input_text (started option input_text w))
    as (_ & Hdlg & Hclip1 & Hui1 & _).
  pose proof (call_openai_api_copy_error option input_text (started option input_text w))
    as Hcopy1.
  rewrite Hcall in Hdlg, Hclip1, Hui1, Hcopy1. cbn in Hdlg, Hclip1, Hui1, Hcopy1.
  split.
  - intros Hcopy. rewrite <- Hcopy1 in Hcopy.
    destruct (process_option_returned _ _ _ _ _ Hin Hkey Hcall Hcopy)
      as (w' & Hrun & Hclip & Hui & _ & _).
    fold input_lang output_lang in Hui.
    assert (closing w1 = closing w) as Hcl by (unfold closing; by rewrite Hdlg).
    rewrite Hui1, Hcl in Hui.
    exists w'. split; [exact Hrun |]. split; [exact Hclip |].
    split; [| split].
    + rewrite Hui, !(assoc_L (++)). apply last_snoc.
    + intros Hne. by rewrite Hui, decide_False.
    + intros Heq. by rewrite Hui, decide_True.
  - intros e Hcopy. rewrite <- Hcopy1 in Hcopy.
    destruct (process_option_copy_failed _ _ _ _ _ _ Hin Hkey Hcall Hcopy)
      as (w' & Hrun & Hclip & Hui & _).
    fold input_lang output_lang in Hui.
    exists w'. split; [exact Hrun |]. split; [congruence |].
    by rewrite Hui, Hui1.
Qed.

(** C6.  When the endpoint raises on the request, [process_option] ends
    normally: it shows one "Error" box with the text of the exception, it
    has sent that one request and no other, and the clipboard is as it
    was. *)
Theorem remote_error_reported_once
    (option input_text prompt : pystr) (w : World) (e : Exn) :
  input_text ≠ [] → truthy (api_key w) = true →
  prompts !! option = Some prompt →
  chat_create (length (net w)) (request_sent prompt input_text w) = Raise e →
  ∃ w', process_option option input_text w = (Return tt, w')
    ∧ ui w' = ui w ++ [error_box e]
    ∧ net w' = net w ++ [request_sent prompt input_text w]
    ∧ clipboard w' = clipboard w.
Proof.
  intros Hin Hkey Hp Hcall.
  pose proof (call_openai_api_run option input_text prompt
                (started option input_text w) Hp) as Hrun.
  change (request_sent prompt input_text (started option input_text w))
    with (request_sent prompt input_text w) in Hrun.
  change (net (started option input_text w)) with (net w) in Hrun.
  rewrite Hcall in Hrun. cbv zeta in Hrun.
  eexists. split; [exact (process_option_raised _ _ _ _ _ Hin Hkey Hrun) |].
  done.
Qed.

(** C8.  With empty input text, [process_option] only shows the "No Text
    Selected" box: no request is sent and the clipboard is as it was.  A
    menu handler gets there when the clipboard is empty or cannot be read. *)
Theorem empty_input_reports_missing_input (option : pystr) (w : World) :
  (process_option option [] w = (Return tt, add_ui no_text_box w)
   ∧ net (process_option option [] w).2 = net w
   ∧ clipboard (process_option option [] w).2 = clipboard w)
  ∧ (clipboard w = [] ∨ is_Some (paste_error w) →
     ∃ w', on_menu option w = (Return tt, w')
       ∧ ui w' = ui w ++ [no_text_box]
       ∧ net w' = net w
       ∧ clipboard w' = clipboard w).
Proof.
  split; [by rewrite process_option_empty |].
  intros H. unfold on_menu, get_selected_text. run_method.
  destruct (paste_error w) as [e |] eqn:He.
  - eexists. split; [apply process_option_empty | done].
  - destruct H as [Hc | [e He']]; [| discriminate].
    rewrite Hc. eexists. split; [apply process_option_empty |].
    cbn. by rewrite Hc.
Qed.

(** ** Image generation *)

(** C7.  When the service returns, the worker emits a list of strings: for a
    list, the string form of each element in order; for any other value, the
    one-element list of its string form. *)
Theorem run_normalizes_output (self : ImageGenerationThread) (output : PyObj) :
  replicate_run (model self)
    (mkReplicateInput (prompt self) (aspect_ratio self) (disable_safety self))
    = Return output →
  (∀ items, output = PyList items →
     run self = finished (PyList (PyStr <$> (py_str <$> items))))
  ∧ (is_list output = false → run self = finished (PyList [PyStr (py_str output)]))
  ∧ (∃ urls : list pystr, run self = finished (PyList (PyStr <$> urls))).
Proof.
  intros H. unfold run. rewrite H. split; [| split].
  - intros items ->. by rewrite <- list_fmap_compose.
  - by destruct output.
  - destruct output;
      try (by exists [py_str PyNone]); try (by eexists [_]).
    exists (py_str <$> items). by rewrite <- list_fmap_compose.
Qed.

(** C10.  [on_generation_error] changes the status label, the preview and
    the button, and nothing else: the last prompt and the output URL stay.
    Among all events of the dialog only a finished generation changes the
    last prompt, and it sets it to the text of the prompt field, also when
    the list of URLs is empty. *)
Theorem last_prompt_set_only_when_finished (d : Dialog) :
  (∀ msg,
     on_generation_error msg d
     = mkDialog (last_prompt d) (model_combo d) (prompt_input d) (aspect_input d)
         (safety_checker d) true (lit "Error generating image: " ++ msg)
         (LabelText (lit "Error generating image")) (output_url d)
         (thread d) (download_thread d) (console d) (saved d))
  ∧ (∀ ev, last_prompt (handle ev d) ≠ last_prompt d →
       ∃ output, ev = GenerationSignal (finished output))
  ∧ (∀ output, last_prompt (on_generation_finished output d) = prompt_input d)
  ∧ last_prompt (handle (GenerationSignal (finished (PyList []))) d) = prompt_input d.
Proof.
  split; [reflexivity |]. split; [| split].
  - intros ev Hne.
    destruct ev as [| | response file_name write_error | text | [output | msg] | data | e];
      try (exfalso; apply Hne; clear Hne; reflexivity).
    3: by exists output.
    all: exfalso; apply Hne; clear Hne.
    + unfold handle, use_last_prompt. by destruct (negb _).
    + unfold handle, download_image.
      destruct (bool_decide _); [reflexivity |].
      destruct response as [data | e].
      * destruct (negb _); [| reflexivity].
        destruct write_error as [e |]; [| reflexivity]. by destruct (only _ _).
      * by destruct (only _ _).
  - intros output. by destruct output as [| | | | | [| first rest] | |].
  - reflexivity.
Qed.

(** ** The stored key *)


(** * Further properties *)

Arguments qa_prompt : simpl never.
Arguments qa_request : simpl never.
Arguments changes_summary : simpl never.

(** ** Blank strings, labels and keys *)

Lemma lstrip_all_space (s : pystr) : all_space s → lstrip s = [].
Proof.
  induction 1 as [| c s Hc _ IH]; simpl; [reflexivity |]. by rewrite Hc.
Qed.

Lemma strip_empty_iff (s : pystr) : strip s = [] ↔ all_space s.
Proof.
  split.
  - intros H. destruct (strip_split s) as (l & r & Hs & Hl & Hr).
    rewrite H in Hs. rewrite Hs. unfold all_space in *.
    rewrite !Forall_app. repeat split; [done | constructor | done].
  - intros H. unfold strip, rstrip. by rewrite (lstrip_all_space _ H).
Qed.

Lemma prompts_unknown (option : pystr) :
  option ∉ operations → prompts !! option = None.
Proof. intros H. unfold prompts. by apply not_elem_of_list_to_map_1. Qed.

(** X1.  The dict [prompts] has exactly the nine operation names the menu
    handlers pass as keys: every handler finds its prompt, and any other
    option string is a missing key. *)
Theorem prompts_keys_are_the_operations (option : pystr) :
  is_Some (prompts !! option) ↔ option ∈ operations.
Proof.
  split.
  - intros [p Hp]. destruct (decide (option ∈ operations)) as [| Hnot]; [done |].
    rewrite (prompts_unknown _ Hnot) in Hp. discriminate.
  - intros H. rewrite (prompts_lookup _ H). by eexists.
Qed.

Lemma other_label_inv (a b : pystr) :
  lit "Other (" ++ a ++ lit ")" = lit "Other (" ++ b ++ lit ")" → a = b.
Proof. intros H. by apply app_inv_head, app_inv_tail in H. Qed.

(** X2.  Two outcomes of the classifier get the same label only when they
    are the same outcome: the label comparison of [process_option] is a
    comparison of the detected codes, and two failures count as equal. *)
Theorem language_label_injective (a b : option pystr) :
  language_label a = language_label b ↔ a = b.
Proof.
  split; [| by intros ->].
  unfold language_label.
  destruct a as [la |], b as [lb |];
    repeat case_decide; subst; intros Hlabel;
    try reflexivity; try (vm_compute in Hlabel; discriminate Hlabel).
  f_equal. by apply other_label_inv.
Qed.

(** ** Every way [process_option] can end *)

Lemma strip_trimmed (s : pystr) : trimmed (strip s).
Proof. split; [apply strip_head | apply strip_last]. Qed.

Lemma call_openai_api_returned (option input_text text : pystr) (w w1 : World) :
  call_openai_api option input_text w = (Return text, w1) →
  ∃ prompt, prompts !! option = Some prompt
    ∧ trimmed text
    ∧ net w1 = net w ++ [request_sent prompt input_text w].
Proof.
  intros Hcall. destruct (prompts !! option) as [prompt |] eqn:Hp.
  - exists prompt. split; [reflexivity |].
    pose proof (call_openai_api_net option input_text prompt w Hp) as Hnet.
    rewrite Hcall in Hnet. split; [| exact Hnet].
    rewrite (call_openai_api_run _ _ _ _ Hp) in Hcall. cbv zeta in Hcall.
    destruct (chat_create _ _) as [response | e]; [| discriminate].
    destruct (choices response) as [| choice rest]; [discriminate |].
    destruct (message_content choice) as [text0 |]; [| discriminate].
    injection Hcall as <- _. apply strip_trimmed.
  - rewrite (call_openai_api_unknown _ _ _ Hp) in Hcall. discriminate.
Qed.

Lemma call_openai_api_requests (option input_text : pystr) (w : World) :
  at_most_one_request (api_key w) w (call_openai_api option input_text w).2.
Proof.
  destruct (prompts !! option) as [prompt |] eqn:Hp.
  - right. exists (request_sent prompt input_text w).
    split; [by apply call_openai_api_net | reflexivity].
  - left. by rewrite (call_openai_api_unknown _ _ _ Hp).
Qed.

Lemma process_option_returned_frame
    (option input_text processed_text : pystr) (w w1 : World) :
  input_text ≠ [] → truthy (api_key w) = true →
  call_openai_api option input_text (started option input_text w)
    = (Return processed_text, w1) →
  ∃ w', process_option option input_text w = (Return tt, w')
    ∧ api_key w' = api_key w1 ∧ config_json w' = config_json w1
    ∧ net w' = net w1.
Proof.
  intros Hin Hkey Hcall.
  unfold process_option, show_result_dialog, started in *.
  rewrite (bool_decide_eq_false_2 _ Hin). run_method.
  rewrite Hkey. cbv beta iota delta [negb]. rewrite Hcall.
  destruct (bool_decide _); cbn;
    (destruct (copy_error w1); cbn; [by eexists |]);
    destruct (current_dialog w1); eexists; repeat split.
Qed.

(** X3.  [process_option] never raises and ends in one of two ways.  Either
    it delivers: the clipboard holds a trimmed text, the result dialog
    showing that text is the last thing on screen, and one request went
    out.  Or it reports: the clipboard is as it was, at most one request
    went out, and what was added to the screen is one message box, or the
    "Language Mismatch" box followed by the "Error" box (when the labels
    differ and writing the clipboard then raises). *)
Theorem process_option_delivers_or_reports (option input_text : pystr) (w : World) :
  ∃ w', process_option option input_text w = (Return tt, w')
    ∧ ((∃ text, clipboard w' = text
           ∧ last (ui w') = Some (result_dialog option text)
           ∧ trimmed text
           ∧ ∃ req, net w' = net w ++ [req])
       ∨ (clipboard w' = clipboard w
          ∧ ((∃ title message, ui w' = ui w ++ [CriticalBox title message])
             ∨ (∃ a b e, ui w' = ui w ++ [mismatch_box a b; error_box e]))
          ∧ at_most_one_request (api_key w) w w')).
Proof.
  destruct (decide (input_text = [])) as [-> | Hin].
  { eexists. split; [apply process_option_empty |]. right.
    split; [reflexivity |]. split; [left; by eexists _, _ | by left]. }
  destruct (truthy (api_key w)) eqn:Hkey; cycle 1.
  { eexists. split; [by apply process_option_no_key |]. right.
    split; [reflexivity |]. split; [left; by eexists _, _ | by left]. }
  pose proof (call_openai_api_frame option input_text (started option input_text w))
    as (_ & _ & Hclip1 & Hui1 & _).
  pose proof (call_openai_api_requests option input_text (started option input_text w))
    as Hreq.
  destruct (call_openai_api option input_text (started option input_text w))
    as [[text | e] w1] eqn:Hcall; cbn in Hclip1, Hui1, Hreq.
  - destruct (call_openai_api_returned _ _ _ _ _ Hcall) as (prompt & _ & Htrim & Hnet).
    destruct (copy_error w1) as [e |] eqn:Hcopy.
    + destruct (process_option_copy_failed _ _ _ _ _ _ Hin Hkey Hcall Hcopy)
        as (w' & Hrun & Hclip & Hui & Hnet' & _).
      exists w'. split; [exact Hrun |]. right.
      split; [congruence |]. split.
      * rewrite Hui1 in Hui. destruct (decide _) in Hui.
        -- left. eexists _, _. exact Hui.
        -- right. eexists _, _, _. exact Hui.
      * unfold at_most_one_request in *. by rewrite Hnet'.
    + destruct (process_option_returned _ _ _ _ _ Hin Hkey Hcall Hcopy)
        as (w' & Hrun & Hclip & Hui & Hnet' & _).
      exists w'. split; [exact Hrun |]. left. exists text.
      split; [exact Hclip |]. split; [| split; [exact Htrim |]].
      * rewrite Hui, !(assoc_L (++)). apply last_snoc.
      * eexists. rewrite Hnet', Hnet. reflexivity.
  - eexists. split; [exact (process_option_raised _ _ _ _ _ Hin Hkey Hcall) |].
    right. split; [exact Hclip1 |]. split.
    + left. eexists _, _. cbn. rewrite Hui1. reflexivity.
    + exact Hreq.
Qed.

(** X4.  A menu handler never raises, whatever the clipboard, the endpoint
    and the classifier do; it leaves the key and [config.json] alone and
    sends at most one request, which carries the configured key. *)
Theorem menu_handler_never_raises (option : pystr) (w : World) :
  ∃ w', on_menu option w = (Return tt, w')
    ∧ api_key w' = api_key w
    ∧ config_json w' = config_json w
    ∧ at_most_one_request (api_key w) w w'.
Proof.
  assert (∀ input_text w0,
            ∃ w', process_option option input_text w0 = (Return tt, w')
              ∧ api_key w' = api_key w0 ∧ config_json w' = config_json w0
              ∧ at_most_one_request (api_key w0) w0 w') as Hprocess.
  { intros input_text w0.
    destruct (decide (input_text = [])) as [-> | Hin].
    { eexists. split; [apply process_option_empty |]. repeat split. by left. }
    destruct (truthy (api_key w0)) eqn:Hkey; cycle 1.
    { eexists. split; [by apply process_option_no_key |]. repeat split. by left. }
    pose proof (call_openai_api_frame option input_text (started option input_text w0))
      as (Hkey1 & _ & _ & _ & Hcfg1).
    pose proof (call_openai_api_requests option input_text (started option input_text w0))
      as Hreq.
    destruct (call_openai_api option input_text (started option input_text w0))
      as [[text | e] w1] eqn:Hcall; cbn in Hkey1, Hcfg1, Hreq.
    - destruct (process_option_returned_frame _ _ _ _ _ Hin Hkey Hcall)
        as (w' & Hrun & Hk & Hc & Hnet').
      exists w'. split; [exact Hrun |]. split; [congruence |]. split; [congruence |].
      unfold at_most_one_request in *. by rewrite Hnet'.
    - eexists. split; [exact (process_option_raised _ _ _ _ _ Hin Hkey Hcall) |].
      split; [exact Hkey1 |]. split; [exact Hcfg1 |]. exact Hreq. }
  unfold on_menu, get_selected_text. run_method.
  destruct (paste_error w) as [e |].
  - destruct (Hprocess [] (add_stdout (lit "Error accessing clipboard: " ++ exn_str e) w))
      as (w' & Hrun & Hk & Hc & Hn).
    exists w'. split; [exact Hrun |]. done.
  - apply Hprocess.
Qed.

(** ** Errors inside the [try] of [process_option] *)

(** X5.  An option string that is not one of the nine operations is
    reported as an error naming the key: nothing is sent, the classifier is
    not consulted, and the clipboard is as it was. *)
Theorem unknown_option_is_reported (option input_text : pystr) (w : World) :
  option ∉ operations → input_text ≠ [] → truthy (api_key w) = true →
  process_option option input_text w
  = (Return tt, add_ui (error_box (mkExn KeyError (repr option)))
                  (started option input_text w)).
Proof.
  intros Hop Hin Hkey. apply process_option_raised; [done | done |].
  apply call_openai_api_unknown. by apply prompts_unknown.
Qed.

(** X6.  An answer of the endpoint without choices, or whose first choice
    has no content, is reported as an error: one "Error" box with the text
    of the [IndexError] or [AttributeError], one request sent, and the
    clipboard as it was. *)
Theorem unusable_answer_is_reported
    (option input_text prompt : pystr) (w : World) (response : ChatResponse) :
  input_text ≠ [] → truthy (api_key w) = true →
  prompts !! option = Some prompt →
  chat_create (length (net w)) (request_sent prompt input_text w) = Return response →
  (choices response = [] →
   ∃ w', process_option option input_text w = (Return tt, w')
     ∧ ui w' = ui w ++ [error_box (mkExn IndexError (lit "list index out of range"))]
     ∧ net w' = net w ++ [request_sent prompt input_text w]
     ∧ clipboard w' = clipboard w)
  ∧ (∀ choice rest, choices response = choice :: rest → message_content choice = None →
     ∃ w', process_option option input_text w = (Return tt, w')
       ∧ ui w' = ui w ++ [error_box (no_attribute PyNone (lit "strip"))]
       ∧ net w' = net w ++ [request_sent prompt input_text w]
       ∧ clipboard w' = clipboard w).
Proof.
  intros Hin Hkey Hp Hcall.
  pose proof (call_openai_api_run option input_text prompt
                (started option input_text w) Hp) as Hrun.
  change (request_sent prompt input_text (started option input_text w))
    with (request_sent prompt input_text w) in Hrun.
  change (net (started option input_text w)) with (net w) in Hrun.
  rewrite Hcall in Hrun. cbv zeta in Hrun.
  split.
  - intros Hnone. rewrite Hnone in Hrun.
    eexists. split; [exact (process_option_raised _ _ _ _ _ Hin Hkey Hrun) |]. done.
  - intros choice rest Hch Hcontent. rewrite Hch, Hcontent in Hrun.
    eexists. split; [exact (process_option_raised _ _ _ _ _ Hin Hkey Hrun) |]. done.
Qed.

(** ** [handle_qa] *)

Lemma handle_qa_asked (input_text processed_text question : pystr) (w : World) :
  ¬ all_space question →
  handle_qa input_text processed_text question w =
  let req := qa_request (api_key w) input_text processed_text question in
  let w1 := add_net req w in
  let failed e :=
    (Return (lit "Error processing question: " ++ exn_str e),
     add_log ERROR (lit "Error in handle_qa: " ++ exn_str e) w1) in
  match chat_create (length (net w)) req with
  | Raise e => failed e
  | Return response =>
      match choices response with
      | [] => failed (mkExn IndexError (lit "list index out of range"))
      | choice :: _ =>
          match message_content choice with
          | None => failed (no_attribute PyNone (lit "strip"))
          | Some text => (Return (strip text), w1)
          end
      end
  end.
Proof.
  intros Hq. unfold handle_qa.
  rewrite bool_decide_eq_false_2 by (by rewrite strip_empty_iff).
  run_method.
  destruct (chat_create _ _) as [response | e]; [| reflexivity].
  destruct (choices response) as [| choice rest]; [reflexivity |].
  destruct (message_content choice) as [text |]; reflexivity.
Qed.

Lemma handle_qa_blank (input_text processed_text question : pystr) (w : World) :
  all_space question →
  handle_qa input_text processed_text question w
  = (Return (lit "Please enter a question."), w).
Proof.
  intros Hq. unfold handle_qa.
  rewrite bool_decide_eq_true_2 by (by rewrite strip_empty_iff). reflexivity.
Qed.

(** X7.  A question made of whitespace only (the empty one included) gets
    the answer "Please enter a question." and has no effect at all: no
    request, no log record. *)
Theorem blank_question_is_not_sent
    (input_text processed_text question : pystr) (w : World) :
  all_space question →
  handle_qa input_text processed_text question w
  = (Return (lit "Please enter a question."), w).
Proof. apply handle_qa_blank. Qed.

(** X8.  [handle_qa] never raises: it always returns an answer, sends at
    most one request (with the configured key), and touches neither the
    clipboard nor the screen. *)
Theorem handle_qa_never_raises
    (input_text processed_text question : pystr) (w : World) :
  ∃ answer w', handle_qa input_text processed_text question w = (Return answer, w')
    ∧ at_most_one_request (api_key w) w w'
    ∧ clipboard w' = clipboard w
    ∧ ui w' = ui w.
Proof.
  destruct (decide (strip question = [])) as [Hq | Hq]; rewrite strip_empty_iff in Hq.
  - eexists _, _. split; [by apply handle_qa_blank |]. split; [by left | done].
  - rewrite (handle_qa_asked _ _ _ _ Hq). cbv zeta.
    destruct (chat_create _ _) as [response | e].
    + destruct (choices response) as [| choice rest];
        [| destruct (message_content choice) as [text |]];
        eexists _, _; (split; [reflexivity |]);
        (split; [right; by eexists | done]).
    + eexists _, _. split; [reflexivity |]. split; [right; by eexists | done].
Qed.

(** X9.  When the endpoint raises on a question, the answer shown is
    "Error processing question: " followed by the text of the exception,
    one ERROR record is logged, and the one request is not repeated. *)
Theorem qa_error_becomes_the_answer
    (input_text processed_text question : pystr) (w : World) (e : Exn) :
  ¬ all_space question →
  chat_create (length (net w))
    (qa_request (api_key w) input_text processed_text question) = Raise e →
  ∃ w', handle_qa input_text processed_text question w
        = (Return (lit "Error processing question: " ++ exn_str e), w')
    ∧ log w' = log w ++ [(ERROR, lit "Error in handle_qa: " ++ exn_str e)]
    ∧ net w' = net w ++ [qa_request (api_key w) input_text processed_text question].
Proof.
  intros Hq Hcall. rewrite (handle_qa_asked _ _ _ _ Hq). cbv zeta. rewrite Hcall.
  eexists. split; [reflexivity |]. done.
Qed.

(** X10.  The request of [handle_qa] depends on the original text only
    through its length: two original texts of the same length give the same
    run, so the original text itself is never sent with a question. *)
Theorem qa_sends_only_the_length_of_the_original
    (input_text input_text' processed_text question : pystr) (w : World) :
  length input_text = length input_text' →
  handle_qa input_text processed_text question w
  = handle_qa input_text' processed_text question w.
Proof.
  intros Hlen. unfold handle_qa, qa_request, qa_prompt, changes_summary.
  by rewrite Hlen.
Qed.

(** X11.  When the endpoint answers a question, the answer shown is the
    content of the first choice, trimmed, and it occurs in that content. *)
Theorem qa_answer_is_trimmed
    (input_text processed_text question : pystr) (w : World)
    (response : ChatResponse) (choice : Choice) (rest : list Choice) (text : pystr) :
  ¬ all_space question →
  chat_create (length (net w))
    (qa_request (api_key w) input_text processed_text question) = Return response →
  choices response = choice :: rest →
  message_content choice = Some text →
  (handle_qa input_text processed_text question w).1 = Return (strip text)
  ∧ trimmed (strip text)
  ∧ occurs_in (strip text) text
  ∧ log (handle_qa input_text processed_text question w).2 = log w.
Proof.
  intros Hq Hcall Hch Htext.
  rewrite (handle_qa_asked _ _ _ _ Hq). cbv zeta. rewrite Hcall, Hch, Htext.
  split; [reflexivity |]. split; [apply strip_trimmed |].
  split; [| reflexivity].
  destruct (strip_split text) as (l & r & Hs & _). by exists l, r.
Qed.

(** ** [load_api_key] at startup *)

Lemma load_api_key_asks (reply : pystr * bool) (w : World) :
  no_stored_key w →
  load_api_key reply w
  = (Return tt,
     (if reply.2 && truthy (PyStr reply.1)
      then set_config_json (key_document reply.1)
      else add_stdout no_key_line)
       (set_api_key (PyStr reply.1) (add_ui key_box w))).
Proof.
  intros [Habs | (d & Hdoc & Hfalsy)];
    unfold load_api_key, load_config, config_get, save_api_key; run_method.
  - rewrite Habs. cbn [only exn_class api_key set_api_key negb fst snd].
    change (truthy PyNone) with false. cbn [negb].
    by destruct (reply.2 && truthy (PyStr reply.1)).
  - rewrite Hdoc. cbn [api_key set_api_key fst snd]. rewrite Hfalsy. cbn [negb].
    by destruct (reply.2 && truthy (PyStr reply.1)).
Qed.


(** X12.  When [config.json] holds a dict with a truthy [api_key],
    [load_api_key] takes that value as the key and does nothing else: no
    input box, nothing printed, the file untouched, whatever the user would
    have answered. *)
Theorem stored_key_is_used_silently
    (reply : pystr * bool) (w : World) (d : gmap pystr PyObj) (key : PyObj) :
  config_json w = Document (PyDict d) →
  d !! lit "api_key" = Some key →
  truthy key = true →
  load_api_key reply w = (Return tt, set_api_key key w).
Proof.
  intros Hdoc Hkey Htrue.
  unfold load_api_key, load_config, config_get. run_method.
  rewrite Hdoc, Hkey. cbn [default from_option id api_key set_api_key].
  rewrite Htrue. reflexivity.
Qed.

(** X13.  When no usable key is stored and the user cancels the input box
    or confirms an empty text, nothing is written to [config.json]; the text
    of the field becomes the key of this run, a line is printed, and with an
    empty text every later transformation of a non-empty input ends at the
    "API Key Missing" box. *)
Theorem declined_key_is_not_saved
    (reply : pystr * bool) (w : World) (option input_text : pystr) :
  no_stored_key w →
  reply.2 = false ∨ reply.1 = [] →
  ∃ w1, load_api_key reply w = (Return tt, w1)
    ∧ config_json w1 = config_json w
    ∧ api_key w1 = PyStr reply.1
    ∧ ui w1 = ui w ++ [key_box]
    ∧ stdout w1 = stdout w ++ [no_key_line]
    ∧ (reply.1 = [] → input_text ≠ [] →
       process_option option input_text w1
       = (Return tt, add_ui key_missing_box w1)).
Proof.
  intros Hnone Hdecl. rewrite (load_api_key_asks _ _ Hnone).
  assert (reply.2 && truthy (PyStr reply.1) = false) as ->.
  { destruct Hdecl as [-> | ->]; [reflexivity | apply andb_false_r]. }
  eexists. split; [reflexivity |]. repeat split.
  intros Hempty Hin. apply process_option_no_key; [exact Hin |].
  cbn. by rewrite Hempty.
Qed.

(** X14.  A [config.json] that is not JSON, or whose document is not a
    dict, makes [load_api_key] raise ([JSONDecodeError], [AttributeError]):
    only a missing file is caught.  The user is not asked and nothing
    changes. *)
Theorem unreadable_config_raises (reply : pystr * bool) (w : World) :
  (∀ err, config_json w = NotJson err →
     load_api_key reply w = (Raise (mkExn JSONDecodeError err), w))
  ∧ (∀ j, config_json w = Document j → (∀ d, j ≠ PyDict d) →
     load_api_key reply w = (Raise (no_attribute j (lit "get")), w)).
Proof.
  split.
  - intros err Hfile. unfold load_api_key, load_config. run_method.
    rewrite Hfile. reflexivity.
  - intros j Hfile Hnot. unfold load_api_key, load_config, config_get. run_method.
    rewrite Hfile. destruct j; try reflexivity. by destruct (Hnot d).
Qed.


(** ** The image dialog *)

Lemma generation_done_returned (d : Dialog) (output : PyObj) :
  service_call d = Return output →
  generation_done (generate_image d)
  = on_generation_finished
      (match output with
       | PyList items => PyList ((λ url, PyStr (py_str url)) <$> items)
       | _ => PyList [PyStr (py_str output)]
       end) (generate_image d).
Proof.
  unfold service_call. intros H. unfold generation_done, handle, run.
  cbn [thread generate_image set_thread model prompt aspect_ratio disable_safety].
  rewrite H. by destruct output.
Qed.

Lemma generation_done_raised (d : Dialog) (e : Exn) :
  service_call d = Raise e →
  generation_done (generate_image d) = on_generation_error (exn_str e) (generate_image d).
Proof.
  unfold service_call. intros H. unfold generation_done, handle, run.
  cbn [thread generate_image set_thread model prompt aspect_ratio disable_safety].
  by rewrite H.
Qed.

(** X16.  A click on "Generate Image" disables the button, and the signal of
    the worker enables it again whatever the service did: a result, an empty
    list or a failure. *)
Theorem generate_button_is_released (d : Dialog) :
  generate_button (generate_image d) = false
  ∧ generate_button (generation_done (generate_image d)) = true.
Proof.
  split; [reflexivity |].
  destruct (service_call d) as [output | e] eqn:Hcall.
  - rewrite (generation_done_returned _ _ Hcall).
    by destruct output as [| | | | | [| first rest] | |].
  - by rewrite (generation_done_raised _ _ Hcall).
Qed.

(** X17.  From click to result: the worker calls the service with the model,
    prompt, aspect ratio and safety flag the widgets hold at the click.  When
    the service returns a value with a first URL, the dialog shows that URL,
    announces the number of images and starts the preview download of that
    URL; for the empty list it says that no images were generated and keeps
    the URL it had; when the service raises, the status line carries the
    text of the exception and the URL is kept. *)
Theorem generation_reaches_the_dialog (d : Dialog) :
  (∀ output url, service_call d = Return output → first_url output = Some url →
     let d' := generation_done (generate_image d) in
     output_url d' = url
     ∧ download_thread d' = Some url
     ∧ status_label d' = lit "Generated " ++ str_of_nat (image_count output)
                         ++ lit " images. Displaying the first one.")
  ∧ (service_call d = Return (PyList []) →
     let d' := generation_done (generate_image d) in
     output_url d' = output_url d
     ∧ download_thread d' = download_thread d
     ∧ status_label d' = lit "No images were generated.")
  ∧ (∀ e, service_call d = Raise e →
     let d' := generation_done (generate_image d) in
     output_url d' = output_url d
     ∧ download_thread d' = download_thread d
     ∧ status_label d' = lit "Error generating image: " ++ exn_str e).
Proof.
  split; [| split].
  - intros output url Hcall Hurl d'. subst d'.
    rewrite (generation_done_returned _ _ Hcall).
    destruct output as [| | | | | [| first rest] | |]; simplify_eq/=;
      try done.
    by rewrite length_fmap.
  - intros Hcall d'. subst d'. by rewrite (generation_done_returned _ _ Hcall).
  - intros e Hcall d'. subst d'. by rewrite (generation_done_raised _ _ Hcall).
Qed.

(** X18.  The "last prompt" is the text of the prompt field when the
    generation finishes, not the prompt that was submitted: if the user edits
    the field while the worker runs, the edited text is remembered, while the
    worker holds the text of the click. *)
Theorem last_prompt_is_the_text_at_finish (d : Dialog) (text : pystr) (output : PyObj) :
  let d' := handle (GenerationSignal (finished output))
              (handle (PromptEdited text) (handle GenerateClicked d)) in
  last_prompt d' = text
  ∧ prompt <$> thread d' = Some (prompt_input d).
Proof. by destruct output as [| | | | | [| first rest] | |]. Qed.

(** X19.  "Use Last Prompt" brings back the prompt of the last finished
    generation after the field was edited; before any generation has
    finished it only says that there is no previous prompt. *)
Theorem use_last_prompt_restores (d : Dialog) :
  (prompt_input d ≠ [] → ∀ output text,
     prompt_input (handle LastPromptClicked
                     (handle (PromptEdited text)
                        (handle (GenerationSignal (finished output)) d)))
     = prompt_input d)
  ∧ (last_prompt d = [] →
     handle LastPromptClicked d
     = set_status_label (lit "No previous prompt available.") d).
Proof.
  split.
  - intros Hne output text.
    assert (∀ d0, last_prompt d0 = prompt_input d →
              prompt_input (use_last_prompt (set_prompt_input text d0)) = prompt_input d)
      as Hstep.
    { intros d0 Hd0. unfold use_last_prompt.
      cbn [last_prompt set_prompt_input]. rewrite Hd0.
      by rewrite (bool_decide_eq_false_2 _ Hne). }
    cbn [handle]. apply Hstep.
    by destruct output as [| | | | | [| first rest] | |].
  - intros Hnone. cbn [handle]. unfold use_last_prompt. rewrite Hnone. reflexivity.
Qed.

(** X20.  The output URL changes only when a generation finishes with a
    non-empty list, and then it is the string form of the first element.  So
    after an empty result or a failure the download button still fetches the
    image of the generation before. *)
Theorem output_url_changes_only_on_result (d : Dialog) (ev : DialogEvent) :
  output_url (handle ev d) ≠ output_url d →
  ∃ first rest,
    ev = GenerationSignal (finished (PyList (first :: rest)))
    ∧ output_url (handle ev d) = py_str first.
Proof.
  intros Hne.
  destruct ev as [| | response file_name write_error | text | [output | msg] | data | e];
    try (exfalso; apply Hne; clear Hne; reflexivity).
  3: { destruct output as [| | | | | [| first rest] | |];
         try (exfalso; apply Hne; clear Hne; reflexivity).
       by exists first, rest. }
  all: exfalso; apply Hne; clear Hne.
  - unfold handle, use_last_prompt. by destruct (negb _).
  - unfold handle, download_image.
    destruct (bool_decide _); [reflexivity |].
    destruct response as [data | e].
    + destruct (negb _); [| reflexivity].
      destruct write_error as [e |]; [| reflexivity]. by destruct (only _ _).
    + by destruct (only _ _).
Qed.


(** X22.  The preview after a result: when the download of the first URL
    succeeds, the preview shows the bytes received; when it fails, the
    status line carries the error and the preview still reads "Generating
    image...".  Either way the URL and the enabled button stay. *)
Theorem preview_follows_the_result (d : Dialog) (output : PyObj) (url : pystr) :
  service_call d = Return output → first_url output = Some url →
  let d1 := generation_done (generate_image d) in
  (∀ content, requests_get url = Return content →
     image_label (preview_done d1) = LabelPixmap content
     ∧ status_label (preview_done d1) = lit "Image generated and displayed successfully.")
  ∧ (∀ e, requests_get url = Raise e →
     image_label (preview_done d1) = LabelText (lit "Generating image...")
     ∧ status_label (preview_done d1) = lit "Error loading preview: " ++ exn_str e)
  ∧ output_url (preview_done d1) = url
  ∧ generate_button (preview_done d1) = true.
Proof.
  intros Hcall Hurl d1.
  assert (download_thread d1 = Some url ∧ output_url d1 = url
          ∧ generate_button d1 = true
          ∧ image_label d1 = LabelText (lit "Generating image...")) as (Hdl & Hout & Hbtn & Himg).
  { subst d1. rewrite (generation_done_returned _ _ Hcall).
    by destruct output as [| | | | | [| first rest] | |]; simplify_eq/=. }
  unfold preview_done, download_run. rewrite Hdl.
  destruct (requests_get url) as [content | e].
  - split; [by intros ? [= <-] |]. split; [by intros ? [=] |]. done.
  - split; [by intros ? [=] |]. split; [| done].
    intros ? [= <-]. split; [exact Himg | reflexivity].
Qed.

End WriteTools.

(** * Concrete runs *)

(** A classifier that knows four texts and raises on everything else. *)
Definition detect_sample : nat → pystr → option pystr := λ _ text,
  if decide (text = lit "Hello") then Some (lit "en")
  else if decide (text = lit "A B C D E.") then Some (lit "en")
  else if decide (text = lit "A B C.") then Some (lit "en")
  else if decide (text = lit "Ol" ++ [0xE1%N]) then Some (lit "pt")
  else if decide (text = lit "Bonjour") then Some (lit "fr")
  else None.

(** An endpoint that answers every request with one choice. *)
Definition chat_answers (text : pystr) : nat → ChatRequest → Outcome ChatResponse :=
  λ _ _, Return (mkChatResponse [mkChoice (Some text)]).

(** An endpoint that is down. *)
Definition connection_error : Exn := mkExn OtherException (lit "Connection error.").

Definition chat_down : nat → ChatRequest → Outcome ChatResponse :=
  λ _ _, Raise connection_error.

(** [repr] on strings without quotes, backslashes or control characters. *)
Definition repr_plain : pystr → pystr := λ s, lit "'" ++ s ++ lit "'".

(** A renderer that wraps the text in a paragraph. *)
Definition markdown_paragraph : pystr → pystr := λ s, lit "<p>" ++ s ++ lit "</p>".

(** A fresh process: no key, empty clipboard, no [config.json]. *)
Definition fresh_world : World :=
  mkWorld PyNone None [] None None Absent [] [] [] [] 0.

(** A process with a key loaded and nothing shown yet. *)
Definition keyed_world : World :=
  mkWorld (PyStr (lit "sk-test")) None (lit "A B C D E.") None None
          (key_document (lit "sk-test")) [] [] [] [] 0.

(** The error of a platform without a clipboard mechanism, and a process
    whose clipboard cannot be written. *)
Definition clipboard_error : Exn :=
  mkExn OtherException (lit "Pyperclip could not find a copy/paste mechanism for your system.").

Definition locked_clipboard_world : World :=
  mkWorld (PyStr (lit "sk-test")) None (lit "A B C D E.") None (Some clipboard_error)
          (key_document (lit "sk-test")) [] [] [] [] 0.

(** An image service that returns one file object, and one that returns a
    list; the string form of file object [n] is its URL. *)
Definition url_of : PyObj → pystr := λ x,
  match x with
  | PyOpaque n => lit "https://replicate.delivery/out-" ++ str_of_nat (N.to_nat n) ++ lit ".png"
  | _ => []
  end.

Definition replicate_single : pystr → ReplicateInput → Outcome PyObj :=
  λ _ _, Return (PyOpaque 0).

Definition replicate_pair : pystr → ReplicateInput → Outcome PyObj :=
  λ _ _, Return (PyList [PyOpaque 0; PyStr (lit "https://example.org/b.png")]).

Definition cat_job : ImageGenerationThread :=
  mkImageGenerationThread (lit "black-forest-labs/flux-dev") (lit "a cat") (lit "16:9") false.

(** The dialog after the user typed a prompt. *)
Definition cat_dialog : Dialog := set_prompt_input (lit "a cat") new_dialog.

Lemma prompt_has_preamble_instruction_language_witness :
  lit "Summary" ∈ operations
  ∧ ∃ label fp,
      (detect_language detect_sample (lit "A B C D E.") keyed_world).1 = Return label
      ∧ net (call_openai_api detect_sample (chat_answers (lit "A B C.")) repr_plain
               (lit "Summary") (lit "A B C D E.") keyed_world).2
        = net keyed_world ++ [chat_request (api_key keyed_world) fp]
      ∧ fp = base_instruction ++ instruction_text (lit "Summary")
             ++ nl ++ nl ++ lit "Input text language: " ++ label
             ++ nl ++ nl ++ lit "A B C D E."
      ∧ occurs_in base_instruction fp
      ∧ occurs_in (instruction_text (lit "Summary")) fp
      ∧ occurs_in label fp.
Proof.
  assert (lit "Summary" ∈ operations) as H by (unfold operations; set_solver).
  split; [exact H |].
  exact (prompt_has_preamble_instruction_language detect_sample
           (chat_answers (lit "A B C.")) repr_plain (lit "Summary") (lit "A B C D E.")
           keyed_world H).
Defined.

Lemma detect_language_labels_witness :
  (detect_language detect_sample (lit "Hello") fresh_world).1 = Return (lit "English")
  ∧ (detect_language detect_sample (lit "Ol" ++ [0xE1%N]) fresh_world).1
    = Return (lit "Portuguese (European)")
  ∧ (detect_language detect_sample (lit "Bonjour") fresh_world).1
    = Return (lit "Other (fr)")
  ∧ (detect_language detect_sample [] fresh_world).1 = Return (lit "Unknown").
Proof.
  split; [| split; [| split]].
  - destruct (detect_language_labels detect_sample (lit "Hello") fresh_world)
      as (_ & _ & Hen & _ & _).
    apply Hen. reflexivity.
  - destruct (detect_language_labels detect_sample (lit "Ol" ++ [0xE1%N]) fresh_world)
      as (_ & Hpt & _ & _ & _).
    apply Hpt. reflexivity.
  - destruct (detect_language_labels detect_sample (lit "Bonjour") fresh_world)
      as (_ & _ & _ & Hother & _).
    apply (Hother (lit "fr")); [reflexivity | discriminate | discriminate].
  - destruct (detect_language_labels detect_sample [] fresh_world)
      as (_ & _ & _ & _ & Hnone).
    apply Hnone. reflexivity.
Defined.

(** C2 as stated fails: for the code fr the label has a space, it is not
    "Other(fr)". *)
Lemma other_label_has_a_space :
  detect_sample (detect_calls fresh_world) (lit "Bonjour") = Some (lit "fr")
  ∧ (detect_language detect_sample (lit "Bonjour") fresh_world).1
    = Return (lit "Other (fr)")
  ∧ (detect_language detect_sample (lit "Bonjour") fresh_world).1
    ≠ Return (lit "Other(fr)").
Proof.
  split; [reflexivity |]. split; [reflexivity |].
  vm_compute. discriminate.
Qed.

Lemma call_openai_api_returns_stripped_first_choice_witness :
  (call_openai_api detect_sample (chat_answers (lit "  foo bar  ")) repr_plain
     (lit "Summary") (lit "A B C D E.") keyed_world).1
  = Return (lit "foo bar").
Proof.
  exact (proj1 (call_openai_api_returns_stripped_first_choice
                  detect_sample (chat_answers (lit "  foo bar  ")) repr_plain
                  (lit "Summary") (lit "A B C D E.")
                  (base_instruction ++ Summary_text) keyed_world
                  (mkChatResponse [mkChoice (Some (lit "  foo bar  "))])
                  (mkChoice (Some (lit "  foo bar  "))) [] (lit "  foo bar  ")
                  eq_refl eq_refl eq_refl eq_refl)).
Defined.

Lemma missing_key_blocks_request_witness :
  truthy (api_key fresh_world) = false
  ∧ net (process_option detect_sample chat_down markdown_paragraph repr_plain
           (lit "Proofread") (lit "Hello") fresh_world).2 = []
  ∧ process_option detect_sample chat_down markdown_paragraph repr_plain
      (lit "Proofread") (lit "Hello") fresh_world
    = (Return tt, add_ui key_missing_box fresh_world).
Proof.
  split; [reflexivity |].
  destruct (missing_key_blocks_request detect_sample chat_down markdown_paragraph
              repr_plain (lit "Proofread") (lit "Hello") fresh_world eq_refl)
    as [Hnet Hbox].
  split; [exact Hnet | apply Hbox; discriminate].
Defined.

(** C4 as stated fails: with no key and no text selected the invocation
    shows the "No Text Selected" box and never the "API Key Missing" one. *)
Lemma empty_input_hides_missing_key :
  truthy (api_key fresh_world) = false
  ∧ ui (process_option detect_sample chat_down markdown_paragraph repr_plain
          (lit "Proofread") [] fresh_world).2 = [no_text_box]
  ∧ key_missing_box ∉ ui (process_option detect_sample chat_down markdown_paragraph
                            repr_plain (lit "Proofread") [] fresh_world).2.
Proof.
  split; [reflexivity |]. split; [reflexivity |].
  change (ui _) with [no_text_box].
  intros H%list_elem_of_singleton. vm_compute in H. discriminate H.
Qed.

Lemma language_mismatch_warns_without_blocking_witness :
  (∃ w', process_option detect_sample (chat_answers (lit "A B C.")) markdown_paragraph
           repr_plain (lit "Summary") (lit "A B C D E.") keyed_world = (Return tt, w')
         ∧ clipboard w' = lit "A B C."
         ∧ ui w' = [result_dialog markdown_paragraph (lit "Summary") (lit "A B C.")])
  ∧ (∃ w', process_option detect_sample (chat_answers (lit "Bonjour")) markdown_paragraph
             repr_plain (lit "Summary") (lit "A B C D E.") keyed_world = (Return tt, w')
           ∧ clipboard w' = lit "Bonjour"
           ∧ ui w' = [mismatch_box (lit "English") (lit "Other (fr)");
                      result_dialog markdown_paragraph (lit "Summary") (lit "Bonjour")])
  ∧ (∃ w', process_option detect_sample (chat_answers (lit "Bonjour")) markdown_paragraph
             repr_plain (lit "Summary") (lit "A B C D E.") locked_clipboard_world
           = (Return tt, w')
           ∧ clipboard w' = lit "A B C D E."
           ∧ ui w' = [mismatch_box (lit "English") (lit "Other (fr)");
                      error_box clipboard_error]).
Proof.
  split; [| split].
  - destruct (language_mismatch_warns_without_blocking
                detect_sample (chat_answers (lit "A B C.")) markdown_paragraph repr_plain
                (lit "Summary") (lit "A B C D E.") (lit "A B C.") keyed_world
                (call_openai_api detect_sample (chat_answers (lit "A B C.")) repr_plain
                   (lit "Summary") (lit "A B C D E.")
                   (started (lit "Summary") (lit "A B C D E.") keyed_world)).2)
      as [Hok _]; [discriminate | reflexivity | reflexivity |].
    destruct (Hok eq_refl) as (w' & Hrun & Hclip & _ & _ & Heq).
    exists w'. split; [exact Hrun |]. split; [exact Hclip |].
    apply Heq. reflexivity.
  - destruct (language_mismatch_warns_without_blocking
                detect_sample (chat_answers (lit "Bonjour")) markdown_paragraph repr_plain
                (lit "Summary") (lit "A B C D E.") (lit "Bonjour") keyed_world
                (call_openai_api detect_sample (chat_answers (lit "Bonjour")) repr_plain
                   (lit "Summary") (lit "A B C D E.")
                   (started (lit "Summary") (lit "A B C D E.") keyed_world)).2)
      as [Hok _]; [discriminate | reflexivity | reflexivity |].
    destruct (Hok eq_refl) as (w' & Hrun & Hclip & _ & Hne & _).
    exists w'. split; [exact Hrun |]. split; [exact Hclip |].
    apply Hne. vm_compute. discriminate.
  - destruct (language_mismatch_warns_without_blocking
                detect_sample (chat_answers (lit "Bonjour")) markdown_paragraph repr_plain
                (lit "Summary") (lit "A B C D E.") (lit "Bonjour") locked_clipboard_world
                (call_openai_api detect_sample (chat_answers (lit "Bonjour")) repr_plain
                   (lit "Summary") (lit "A B C D E.")
                   (started (lit "Summary") (lit "A B C D E.") locked_clipboard_world)).2)
      as [_ Hfail]; [discriminate | reflexivity | reflexivity |].
    exact (Hfail clipboard_error eq_refl).
Defined.

(** C5 as stated fails: the endpoint answers, the labels differ, but writing
    the clipboard raises; the warning and the error are shown, the result is
    neither copied nor displayed. *)
Lemma failed_copy_suppresses_result :
  (call_openai_api detect_sample (chat_answers (lit "Bonjour")) repr_plain
     (lit "Summary") (lit "A B C D E.")
     (started (lit "Summary") (lit "A B C D E.") locked_clipboard_world)).1
  = Return (lit "Bonjour")
  ∧ clipboard (process_option detect_sample (chat_answers (lit "Bonjour"))
                 markdown_paragraph repr_plain (lit "Summary") (lit "A B C D E.")
                 locked_clipboard_world).2
    ≠ lit "Bonjour"
  ∧ ui (process_option detect_sample (chat_answers (lit "Bonjour"))
          markdown_paragraph repr_plain (lit "Summary") (lit "A B C D E.")
          locked_clipboard_world).2
    = [mismatch_box (lit "English") (lit "Other (fr)"); error_box clipboard_error].
Proof.
  split; [reflexivity |]. split; [| reflexivity].
  vm_compute. discriminate.
Qed.

Lemma remote_error_reported_once_witness :
  ∃ w', process_option detect_sample chat_down markdown_paragraph repr_plain
          (lit "Summary") (lit "A B C D E.") keyed_world = (Return tt, w')
        ∧ ui w' = [error_box connection_error]
        ∧ length (net w') = 1
        ∧ clipboard w' = lit "A B C D E.".
Proof.
  destruct (remote_error_reported_once detect_sample chat_down markdown_paragraph
              repr_plain (lit "Summary") (lit "A B C D E.")
              (base_instruction ++ Summary_text) keyed_world connection_error)
    as (w' & Hrun & Hui & Hnet & Hclip);
    [discriminate | reflexivity | reflexivity | reflexivity |].
  exists w'. split; [exact Hrun |]. split; [exact Hui |].
  split; [by rewrite Hnet | exact Hclip].
Defined.

Lemma run_normalizes_output_witness :
  run url_of replicate_single cat_job
  = finished (PyList [PyStr (lit "https://replicate.delivery/out-0.png")])
  ∧ run url_of replicate_pair cat_job
    = finished (PyList [PyStr (lit "https://replicate.delivery/out-0.png");
                        PyStr (lit "https://example.org/b.png")]).
Proof.
  split.
  - destruct (run_normalizes_output url_of replicate_single cat_job (PyOpaque 0) eq_refl)
      as (_ & Hsingle & _).
    apply Hsingle. reflexivity.
  - destruct (run_normalizes_output url_of replicate_pair cat_job
                (PyList [PyOpaque 0; PyStr (lit "https://example.org/b.png")]) eq_refl)
      as (Hlist & _ & _).
    apply (Hlist [PyOpaque 0; PyStr (lit "https://example.org/b.png")]). reflexivity.
Defined.

Lemma empty_input_reports_missing_input_witness :
  ∃ w', on_menu detect_sample chat_down markdown_paragraph repr_plain
          (lit "Rewrite") fresh_world = (Return tt, w')
        ∧ ui w' = [no_text_box]
        ∧ net w' = []
        ∧ clipboard w' = [].
Proof.
  destruct (empty_input_reports_missing_input detect_sample chat_down
              markdown_paragraph repr_plain (lit "Rewrite") fresh_world)
    as [_ Hmenu].
  apply Hmenu. left. reflexivity.
Defined.


Lemma last_prompt_set_only_when_finished_witness :
  last_prompt (handle url_of (GenerationSignal (finished (PyList []))) cat_dialog)
  ≠ last_prompt cat_dialog
  ∧ ∃ output,
      GenerationSignal (finished (PyList [])) = GenerationSignal (finished output).
Proof.
  assert (last_prompt (handle url_of (GenerationSignal (finished (PyList []))) cat_dialog)
          ≠ last_prompt cat_dialog) as H by discriminate.
  split; [exact H |].
  destruct (last_prompt_set_only_when_finished url_of cat_dialog) as (_ & Honly & _ & _).
  exact (Honly _ H).
Defined.

(** ** Concrete runs of the further properties *)

(** An endpoint whose answer has no choices, and one whose first choice has
    no content. *)
Definition chat_no_choices : nat → ChatRequest → Outcome ChatResponse :=
  λ _ _, Return (mkChatResponse []).

Definition chat_no_content : nat → ChatRequest → Outcome ChatResponse :=
  λ _ _, Return (mkChatResponse [mkChoice None]).

(** A process whose [config.json] is not JSON, and one whose document is a
    list. *)
Definition broken_config_world : World :=
  mkWorld PyNone None [] None None (NotJson (lit "Expecting value: line 1 column 1 (char 0)"))
          [] [] [] [] 0.

Definition list_config_world : World :=
  mkWorld PyNone None [] None None (Document (PyList [])) [] [] [] [] 0.

(** An image service that returns the empty list, and one that fails. *)
Definition replicate_nothing : pystr → ReplicateInput → Outcome PyObj :=
  λ _ _, Return (PyList []).

Definition replicate_down : pystr → ReplicateInput → Outcome PyObj :=
  λ _ _, Raise connection_error.

(** A download that delivers four bytes, and one that fails with a
    [RequestException]. *)
Definition four_bytes : list Byte.byte := [Byte.x89; Byte.x50; Byte.x4e; Byte.x47].

Definition requests_ok : pystr → Outcome (list Byte.byte) := λ _, Return four_bytes.

Definition not_found : Exn :=
  mkExn RequestException (lit "404 Client Error: Not Found for url").

Definition requests_broken : pystr → Outcome (list Byte.byte) := λ _, Raise not_found.


(** The dialog showing the URL of an earlier result. *)
Definition shown_dialog : Dialog :=
  set_output_url (lit "https://example.org/b.png") cat_dialog.

Lemma prompts_keys_are_the_operations_witness :
  lit "Table" ∈ operations ∧ is_Some (prompts !! lit "Table").
Proof.
  assert (lit "Table" ∈ operations) as H by (unfold operations; set_solver).
  split; [exact H |]. exact (proj2 (prompts_keys_are_the_operations (lit "Table")) H).
Defined.

Lemma language_label_injective_witness :
  language_label (Some (lit "fr")) = language_label (Some (lit "fr"))
  ∧ (Some (lit "fr") : option pystr) = Some (lit "fr").
Proof.
  split; [reflexivity |].
  exact (proj1 (language_label_injective (Some (lit "fr")) (Some (lit "fr"))) eq_refl).
Defined.

Lemma unknown_option_is_reported_witness :
  (lit "Translate" ∉ operations)
  ∧ process_option detect_sample (chat_answers (lit "A B C.")) markdown_paragraph repr_plain
      (lit "Translate") (lit "Hello") keyed_world
    = (Return tt,
       add_ui (error_box (mkExn KeyError (lit "'Translate'")))
         (started (lit "Translate") (lit "Hello") keyed_world)).
Proof.
  assert (lit "Translate" ∉ operations) as H
    by (apply (bool_decide_unpack _); vm_compute; exact I).
  split; [exact H |].
  apply (unknown_option_is_reported detect_sample (chat_answers (lit "A B C."))
           markdown_paragraph repr_plain (lit "Translate") (lit "Hello") keyed_world);
    [exact H | discriminate | reflexivity].
Defined.

Lemma unusable_answer_is_reported_witness :
  (∃ w', process_option detect_sample chat_no_choices markdown_paragraph repr_plain
           (lit "Summary") (lit "Hello") keyed_world = (Return tt, w')
         ∧ ui w' = [error_box (mkExn IndexError (lit "list index out of range"))]
         ∧ length (net w') = 1
         ∧ clipboard w' = lit "A B C D E.")
  ∧ (∃ w', process_option detect_sample chat_no_content markdown_paragraph repr_plain
             (lit "Summary") (lit "Hello") keyed_world = (Return tt, w')
           ∧ ui w' = [error_box (no_attribute PyNone (lit "strip"))]
           ∧ length (net w') = 1
           ∧ clipboard w' = lit "A B C D E.").
Proof.
  split.
  - destruct (unusable_answer_is_reported detect_sample chat_no_choices
                markdown_paragraph repr_plain (lit "Summary") (lit "Hello")
                (base_instruction ++ Summary_text) keyed_world (mkChatResponse []))
      as [Hnone _]; [discriminate | reflexivity | reflexivity | reflexivity |].
    destruct (Hnone eq_refl) as (w' & Hrun & Hui & Hnet & Hclip).
    exists w'. split; [exact Hrun |]. split; [exact Hui |].
    split; [by rewrite Hnet | exact Hclip].
  - destruct (unusable_answer_is_reported detect_sample chat_no_content
                markdown_paragraph repr_plain (lit "Summary") (lit "Hello")
                (base_instruction ++ Summary_text) keyed_world
                (mkChatResponse [mkChoice None]))
      as [_ Hcontent]; [discriminate | reflexivity | reflexivity | reflexivity |].
    destruct (Hcontent (mkChoice None) [] eq_refl eq_refl)
      as (w' & Hrun & Hui & Hnet & Hclip).
    exists w'. split; [exact Hrun |]. split; [exact Hui |].
    split; [by rewrite Hnet | exact Hclip].
Defined.

Lemma blank_question_is_not_sent_witness :
  all_space (lit "   ")
  ∧ handle_qa (chat_answers (lit "A B C.")) (lit "A B C D E.") (lit "A B C.") (lit "   ")
      keyed_world
    = (Return (lit "Please enter a question."), keyed_world).
Proof.
  assert (all_space (lit "   ")) as H by (repeat constructor).
  split; [exact H |].
  exact (blank_question_is_not_sent (chat_answers (lit "A B C.")) (lit "A B C D E.")
           (lit "A B C.") (lit "   ") keyed_world H).
Defined.

Lemma qa_error_becomes_the_answer_witness :
  ∃ w', handle_qa chat_down (lit "A B C D E.") (lit "A B C.") (lit "Why?") keyed_world
        = (Return (lit "Error processing question: Connection error."), w')
    ∧ log w' = [(ERROR, lit "Error in handle_qa: Connection error.")]
    ∧ net w' = [qa_request (api_key keyed_world) (lit "A B C D E.") (lit "A B C.")
                  (lit "Why?")].
Proof.
  apply (qa_error_becomes_the_answer chat_down (lit "A B C D E.") (lit "A B C.")
           (lit "Why?") keyed_world connection_error); [| reflexivity].
  intros H. inversion H as [| c s Hc Hs]. discriminate Hc.
Defined.

Lemma qa_sends_only_the_length_of_the_original_witness :
  handle_qa (chat_answers (lit "Yes.")) (lit "secret") (lit "A B C.") (lit "Why?") keyed_world
  = handle_qa (chat_answers (lit "Yes.")) (lit "public") (lit "A B C.") (lit "Why?")
      keyed_world.
Proof.
  exact (qa_sends_only_the_length_of_the_original (chat_answers (lit "Yes."))
           (lit "secret") (lit "public") (lit "A B C.") (lit "Why?") keyed_world eq_refl).
Defined.

Lemma qa_answer_is_trimmed_witness :
  (handle_qa (chat_answers (lit " Because. ")) (lit "A B C D E.") (lit "A B C.")
     (lit "Why?") keyed_world).1
  = Return (lit "Because.").
Proof.
  refine (proj1 (qa_answer_is_trimmed (chat_answers (lit " Because. "))
                   (lit "A B C D E.") (lit "A B C.") (lit "Why?") keyed_world
                   (mkChatResponse [mkChoice (Some (lit " Because. "))])
                   (mkChoice (Some (lit " Because. "))) [] (lit " Because. ")
                   _ eq_refl eq_refl eq_refl)).
  intros H. inversion H as [| c s Hc Hs]. discriminate Hc.
Defined.

Lemma stored_key_is_used_silently_witness :
  load_api_key ([], false) keyed_world
  = (Return tt, set_api_key (PyStr (lit "sk-test")) keyed_world).
Proof.
  apply (stored_key_is_used_silently ([], false) keyed_world
           {[ lit "api_key" := PyStr (lit "sk-test") ]} (PyStr (lit "sk-test")));
    [reflexivity | apply lookup_singleton_eq | reflexivity].
Defined.

Lemma declined_key_is_not_saved_witness :
  ∃ w1, load_api_key ([], false) fresh_world = (Return tt, w1)
    ∧ config_json w1 = Absent
    ∧ api_key w1 = PyStr []
    ∧ ui w1 = [key_box]
    ∧ stdout w1 = [no_key_line]
    ∧ process_option detect_sample chat_down markdown_paragraph repr_plain
        (lit "Summary") (lit "Hello") w1
      = (Return tt, add_ui key_missing_box w1).
Proof.
  destruct (declined_key_is_not_saved detect_sample chat_down markdown_paragraph
              repr_plain ([], false) fresh_world (lit "Summary") (lit "Hello"))
    as (w1 & Hrun & Hcfg & Hkey & Hui & Hout & Hnext);
    [left; reflexivity | left; reflexivity |].
  exists w1. split; [exact Hrun |]. split; [exact Hcfg |]. split; [exact Hkey |].
  split; [exact Hui |]. split; [exact Hout |].
  apply Hnext; [reflexivity | discriminate].
Defined.

Lemma unreadable_config_raises_witness :
  load_api_key (lit "sk-test", true) broken_config_world
  = (Raise (mkExn JSONDecodeError (lit "Expecting value: line 1 column 1 (char 0)")),
     broken_config_world)
  ∧ load_api_key (lit "sk-test", true) list_config_world
    = (Raise (no_attribute (PyList []) (lit "get")), list_config_world).
Proof.
  split.
  - destruct (unreadable_config_raises (lit "sk-test", true) broken_config_world)
      as [Hjson _].
    apply Hjson. reflexivity.
  - destruct (unreadable_config_raises (lit "sk-test", true) list_config_world)
      as [_ Hattr].
    apply Hattr; [reflexivity | discriminate].
Defined.


Lemma generation_reaches_the_dialog_witness :
  (let d' := generation_done url_of replicate_pair (generate_image cat_dialog) in
   output_url d' = lit "https://replicate.delivery/out-0.png"
   ∧ download_thread d' = Some (lit "https://replicate.delivery/out-0.png")
   ∧ status_label d' = lit "Generated 2 images. Displaying the first one.")
  ∧ (let d' := generation_done url_of replicate_nothing (generate_image shown_dialog) in
     output_url d' = lit "https://example.org/b.png"
     ∧ download_thread d' = None
     ∧ status_label d' = lit "No images were generated.")
  ∧ (let d' := generation_done url_of replicate_down (generate_image shown_dialog) in
     output_url d' = lit "https://example.org/b.png"
     ∧ download_thread d' = None
     ∧ status_label d' = lit "Error generating image: Connection error.").
Proof.
  split; [| split].
  - destruct (generation_reaches_the_dialog url_of replicate_pair cat_dialog)
      as (Hresult & _ & _).
    exact (Hresult (PyList [PyOpaque 0; PyStr (lit "https://example.org/b.png")])
             (lit "https://replicate.delivery/out-0.png") eq_refl eq_refl).
  - destruct (generation_reaches_the_dialog url_of replicate_nothing shown_dialog)
      as (_ & Hempty & _).
    exact (Hempty eq_refl).
  - destruct (generation_reaches_the_dialog url_of replicate_down shown_dialog)
      as (_ & _ & Hfail).
    exact (Hfail connection_error eq_refl).
Defined.

Lemma use_last_prompt_restores_witness :
  prompt_input (handle url_of LastPromptClicked
                  (handle url_of (PromptEdited (lit "a dog"))
                     (handle url_of (GenerationSignal (finished (PyList []))) cat_dialog)))
  = lit "a cat"
  ∧ handle url_of LastPromptClicked cat_dialog
    = set_status_label (lit "No previous prompt available.") cat_dialog.
Proof.
  destruct (use_last_prompt_restores url_of cat_dialog) as [Hback Hnone].
  split.
  - apply Hback. discriminate.
  - apply Hnone. reflexivity.
Defined.

Lemma output_url_changes_only_on_result_witness :
  output_url (handle url_of (GenerationSignal (finished (PyList [PyOpaque 0]))) cat_dialog)
  ≠ output_url cat_dialog
  ∧ ∃ first rest,
      GenerationSignal (finished (PyList [PyOpaque 0]))
      = GenerationSignal (finished (PyList (first :: rest)))
      ∧ output_url (handle url_of (GenerationSignal (finished (PyList [PyOpaque 0])))
                      cat_dialog)
        = py_str url_of first.
Proof.
  assert (output_url (handle url_of (GenerationSignal (finished (PyList [PyOpaque 0])))
                        cat_dialog)
          ≠ output_url cat_dialog) as H by discriminate.
  split; [exact H |].
  exact (output_url_changes_only_on_result url_of cat_dialog _ H).
Defined.


Lemma preview_follows_the_result_witness :
  (image_label (preview_done url_of requests_ok
                  (generation_done url_of replicate_single (generate_image cat_dialog)))
   = LabelPixmap four_bytes)
  ∧ (image_label (preview_done url_of requests_broken
                    (generation_done url_of replicate_single (generate_image cat_dialog)))
     = LabelText (lit "Generating image...")
     ∧ status_label (preview_done url_of requests_broken
                       (generation_done url_of replicate_single (generate_image cat_dialog)))
       = lit "Error loading preview: 404 Client Error: Not Found for url").
Proof.
  split.
  - destruct (preview_follows_the_result url_of replicate_single requests_ok cat_dialog
                (PyOpaque 0) (lit "https://replicate.delivery/out-0.png") eq_refl eq_refl)
      as (Hok & _ & _ & _).
    exact (proj1 (Hok four_bytes eq_refl)).
  - destruct (preview_follows_the_result url_of replicate_single requests_broken cat_dialog
                (PyOpaque 0) (lit "https://replicate.delivery/out-0.png") eq_refl eq_refl)
      as (_ & Hfail & _ & _).
    exact (Hfail not_found eq_refl).
Defined.
